(** * telestories: the bot's message handlers ([src/bot/handlers.py])

    A shallow embedding of the handler module of the Telegram bot: the
    [/start] and [/help] handlers, the catch-all handlers, the command-menu
    helper [update_user_commands] and the router set-up executed at import
    time.

    The handlers talk to three collaborators that live outside the module
    (the storage session and its repositories, the aiogram transport, the
    logger).  Every call to a collaborator is recorded, in program order, as
    an [event]; what the collaborator answers (a value, or a raised
    exception) is read from a [World].  A handler is therefore a value of the
    small error-and-trace monad [M]: the events it performed together with
    either its return value or the exception that escaped it. *)

From Stdlib Require Import ZArith List String Ascii Bool Lia.
Import ListNotations.
Open Scope string_scope.
Open Scope list_scope.
Open Scope Z_scope.

(** ** Python values *)

(** A raised Python exception.  [except Exception] catches the instances of
    [Exception] and of its subclasses only; [KeyboardInterrupt],
    [SystemExit], [asyncio.CancelledError] derive from [BaseException]
    directly and pass through such a clause. *)
Inductive exn : Type :=
| ExceptionInst (cls msg : string)
| BaseExceptionInst (cls msg : string).

Definition isinstance_Exception (e : exn) : bool :=
  match e with
  | ExceptionInst _ _ => true
  | BaseExceptionInst _ _ => false
  end.

(** [x or d] where [x] is [None] or a [str]: the empty string is falsy. *)
Definition or_str (x : option string) (d : string) : string :=
  match x with
  | Some (String c s) => String c s
  | Some EmptyString => d
  | None => d
  end.

(** [x or d] where [x] is [None] or a [bool]. *)
Definition or_bool (x : option bool) (d : bool) : bool :=
  match x with
  | Some true => true
  | Some false => d
  | None => d
  end.

(** [x or d] where [x] is [None] or a [datetime] (a datetime is always
    truthy); timestamps are kept as integers. *)
Definition or_datetime (x : option Z) (d : Z) : Z :=
  match x with
  | Some ts => ts
  | None => d
  end.

(** The line feed of the Python literal ["\n"]. *)
Definition nl : string := String (ascii_of_nat 10) EmptyString.

(** ** aiogram types: what the handlers read from a message *)

Record User : Type := mkUser {
  user_id : Z;
  user_is_bot : bool;
  user_is_premium : option bool;
  user_language_code : option string;
  user_username : option string
}.

(** The optional attributes are the ones the handler reads through
    [getattr(message.chat, name, default)]: [None] stands for an attribute
    that is missing or holds [None]. *)
Record Chat : Type := mkChat {
  chat_id : Z;
  chat_type : string;
  chat_title : option string;
  chat_username : option string;
  chat_first_name : option string;
  chat_last_name : option string;
  chat_is_forum : option bool;
  chat_created_at : option Z
}.

Record Bot : Type := mkBot { bot_id : Z }.

Record Message : Type := mkMessage {
  from_user : option User;
  chat : Chat;
  bot : option Bot
}.

Record BotCommand : Type := mkBotCommand {
  command : string;
  description : string
}.

Inductive BotCommandScope : Type :=
| BotCommandScopeDefault
| BotCommandScopeAllPrivateChats
| BotCommandScopeChat (scope_chat_id : Z).

(** ** Storage schemas ([db.schemas]) *)

Record ChatSchema : Type := mkChatSchema {
  cs_id : Z;
  cs_type : string;
  cs_title : option string;
  cs_username : option string;
  cs_first_name : option string;
  cs_last_name : option string;
  cs_is_forum : bool;
  cs_created_at : Z
}.

Record UserCreate : Type := mkUserCreate {
  uc_chat_id : Z;
  uc_username : string;
  uc_is_bot : bool;
  uc_is_premium : bool
}.

(** ** Events: the calls a handler makes to its collaborators *)

Inductive log_level : Type := DEBUG | ERROR | EXCEPTION.

Inductive log_arg : Type :=
| LInt (z : Z)
| LBool (b : bool)
| LExc (e : exn).

Inductive event : Type :=
| EvGetSession
| EvTryCreateChat (c : ChatSchema)
| EvSaveUser (u : UserCreate)
| EvSessionClose
| EvLog (lvl : log_level) (fmt : string) (args : list log_arg)
| EvAnswer (to_chat : Z) (text : string) (parse_mode : option string)
           (disable_web_page_preview : option bool)
| EvSetMyCommands (b : Bot) (commands : list BotCommand) (scope : BotCommandScope).

Definition trace : Type := list event.

(** ** The error-and-trace monad *)

Inductive result (A : Type) : Type :=
| Ok (a : A)
| Raise (e : exn).
Arguments Ok {A} a.
Arguments Raise {A} e.

Definition M (A : Type) : Type := (result A * trace)%type.

Definition ret {A : Type} (a : A) : M A := (Ok a, []).

Definition bind {A B : Type} (m : M A) (f : A -> M B) : M B :=
  match m with
  | (Ok a, tr) => let (r, tr') := f a in (r, tr ++ tr')
  | (Raise e, tr) => (Raise e, tr)
  end.

Declare Scope handler_scope.
Delimit Scope handler_scope with handler.
Notation "x <- c1 ;; c2" := (bind c1 (fun x => c2))
  (at level 100, c1 at next level, right associativity) : handler_scope.
Notation "c1 ;; c2" := (bind c1 (fun _ => c2))
  (at level 100, right associativity) : handler_scope.
Open Scope handler_scope.

(** A call to a collaborator: the call is recorded, then it returns or
    raises as the world says. *)
Definition call {A : Type} (ev : event) (outcome : result A) : M A :=
  (outcome, [ev]).

(** The logger never raises. *)
Definition LOG (lvl : log_level) (fmt : string) (args : list log_arg) : M unit :=
  call (EvLog lvl fmt args) (Ok tt).

(** [try: body / except Exception as error: handler error]. *)
Definition try_except_Exception {A : Type} (body : M A) (handler : exn -> M A) : M A :=
  match body with
  | (Ok a, tr) => (Ok a, tr)
  | (Raise e, tr) =>
      if isinstance_Exception e
      then let (r, tr') := handler e in (r, tr ++ tr')
      else (Raise e, tr)
  end.

(** [try: body / finally: final]: [final] runs on every exit of [body]; an
    exception raised by [final] replaces the outcome of [body]. *)
Definition try_finally {A : Type} (body : M A) (final : M unit) : M A :=
  let (r, tr) := body in
  match final with
  | (Ok _, tr') => (r, tr ++ tr')
  | (Raise e, tr') => (Raise e, tr ++ tr')
  end.

Definition outcome {A : Type} (m : M A) : result A := fst m.
Definition events {A : Type} (m : M A) : trace := snd m.

(** ** The world: what the collaborators answer *)

Record World : Type := mkWorld {
  (** [db.session.get_session()] *)
  get_session : result unit;
  (** [ChatRepository(session).try_create_chat(chat_data)] *)
  try_create_chat : ChatSchema -> result unit;
  (** [UserRepository(session).save_user(user)] *)
  save_user : UserCreate -> result unit;
  (** [session.close()] *)
  session_close : result unit;
  (** [datetime.datetime.now()] *)
  now : Z;
  (** [message.answer(text, parse_mode=..., disable_web_page_preview=...)] *)
  answer : Z -> string -> option string -> option bool -> result unit;
  (** [message.bot.set_my_commands(commands, scope=...)] *)
  set_my_commands : Bot -> list BotCommand -> BotCommandScope -> result bool
}.

(** ** Reading a trace *)

Definition is_storage_event (ev : event) : bool :=
  match ev with
  | EvGetSession | EvTryCreateChat _ | EvSaveUser _ | EvSessionClose => true
  | _ => false
  end.

Definition is_answer_event (ev : event) : bool :=
  match ev with
  | EvAnswer _ _ _ _ => true
  | _ => false
  end.

Definition is_set_commands_event (ev : event) : bool :=
  match ev with
  | EvSetMyCommands _ _ _ => true
  | _ => false
  end.

(** What the user can see: replies and command-menu pushes. *)
Definition is_transport_event (ev : event) : bool :=
  is_answer_event ev || is_set_commands_event ev.

(** The command-menu pushes of a trace: the names pushed and the scope. *)
Fixpoint pushed_menus (tr : trace) : list (list string * BotCommandScope) :=
  match tr with
  | [] => []
  | EvSetMyCommands _ cmds sc :: tr' => (map command cmds, sc) :: pushed_menus tr'
  | _ :: tr' => pushed_menus tr'
  end.


(** ** The handlers *)

(** The role of a sender, as the handlers derive it from the message. *)
Record RoleSnapshot : Type := mkRole {
  is_admin : bool;
  is_premium : bool;
  locale : string;
  is_bot : bool
}.

Section Handlers.

(** [utils.i18n.t(locale, key, **kwargs)]: the localization lookup; the
    keyword arguments are kept in the order they are written. *)
Variable t : string -> string -> list (string * string) -> string.

(** [BOT_ADMIN_ID = get_config().BOT_ADMIN_ID] *)
Variable BOT_ADMIN_ID : Z.

(** The four assignments that open [command_start_handler] (and, without
    [is_bot], [command_help_handler]). *)
Definition classify (u : User) : RoleSnapshot :=
  {| locale := or_str (user_language_code u) "en";
     is_bot := user_is_bot u;
     is_admin := user_id u =? BOT_ADMIN_ID;
     is_premium := or_bool (user_is_premium u) false |}.

(** [update_user_commands(message, is_admin, is_premium)] *)
Definition update_user_commands (w : World) (message : Message)
           (is_admin is_premium : bool) : M unit :=
  match from_user message, bot message with
  | Some u, Some b =>
      LOG DEBUG "Updating commands for user %d, is_admin: %s, is_premium: %s"
          [LInt (user_id u); LBool is_admin; LBool is_premium] ;;
      let locale := or_str (user_language_code u) "en" in
      (* Base commands *)
      let commands :=
        [ mkBotCommand "start" (t locale "cmd.start" []);
          mkBotCommand "help" (t locale "cmd.help" []);
          mkBotCommand "queue" (t locale "cmd.queue" []);
          mkBotCommand "profile" (t locale "cmd.profile" []);
          mkBotCommand "bugs" (t locale "cmd.bugs" []) ] in
      (* Premium commands - only for premium users *)
      commands <-
        (if is_premium
         then LOG DEBUG "Adding premium commands" [] ;;
              ret (commands ++
                [ mkBotCommand "monitor" (t locale "cmd.monitor" []);
                  mkBotCommand "unmonitor" (t locale "cmd.unmonitor" []) ])
         else ret commands) ;;
      (* Admin commands *)
      commands <-
        (if is_admin
         then LOG DEBUG "Adding admin commands" [] ;;
              ret (commands ++
                [ mkBotCommand "users" (t locale "cmd.users" []);
                  mkBotCommand "history" (t locale "cmd.history" []);
                  mkBotCommand "block" (t locale "cmd.block" []);
                  mkBotCommand "unblock" (t locale "cmd.unblock" []);
                  mkBotCommand "blocklist" (t locale "cmd.blocklist" []);
                  mkBotCommand "status" (t locale "cmd.status" []);
                  mkBotCommand "restart" (t locale "cmd.restart" []);
                  mkBotCommand "bugreport" (t locale "cmd.listbugs" []);
                  mkBotCommand "bugs" (t locale "cmd.bugs" []);
                  mkBotCommand "reset_auth" "Reset Telegram auth code";
                  mkBotCommand "flush" (t locale "cmd.flush" []);
                  mkBotCommand "welcome" (t locale "cmd.welcome" []) ])
         else ret commands) ;;
      LOG DEBUG "Updating commands for user %d" [LInt (user_id u)] ;;
      let scope := BotCommandScopeChat (chat_id (chat message)) in
      result <- call (EvSetMyCommands b commands scope)
                     (set_my_commands w b commands scope) ;;
      if (result : bool)
      then LOG DEBUG "Commands updated for user %d" [LInt (user_id u)]
      else LOG ERROR "Failed to update commands for user %d" [LInt (user_id u)]
  | _, _ => ret tt
  end.

(** [command_start_handler(message)], registered for [CommandStart()]. *)
Definition command_start_handler (w : World) (message : Message) : M unit :=
  match from_user message with
  | None => ret tt
  | Some u =>
      let locale := or_str (user_language_code u) "en" in
      let is_bot := user_is_bot u in
      let is_admin := user_id u =? BOT_ADMIN_ID in
      let is_premium := or_bool (user_is_premium u) false in
      call EvGetSession (get_session w) ;;
      try_finally
        (try_except_Exception
           ((* Create chat record at the beginning *)
            let chat_data :=
              {| cs_id := chat_id (chat message);
                 cs_type := chat_type (chat message);
                 cs_title := chat_title (chat message);
                 cs_username := chat_username (chat message);
                 cs_first_name := chat_first_name (chat message);
                 cs_last_name := chat_last_name (chat message);
                 cs_is_forum := or_bool (chat_is_forum (chat message)) false;
                 cs_created_at := or_datetime (chat_created_at (chat message)) (now w) |} in
            call (EvTryCreateChat chat_data) (try_create_chat w chat_data) ;;
            let user_data :=
              {| uc_chat_id := user_id u;
                 uc_username := or_str (user_username u) "";
                 uc_is_bot := is_bot;
                 uc_is_premium := is_premium |} in
            call (EvSaveUser user_data) (save_user w user_data) ;;
            LOG DEBUG "User %d started the bot" [LInt (user_id u)])
           (fun error =>
              LOG EXCEPTION "Failed to save user on /start: %s" [LExc error]))
        (call EvSessionClose (session_close w)) ;;
      let msg := t locale "start.instructions" [] in
      call (EvAnswer (chat_id (chat message)) msg (Some "Markdown") (Some true))
           (answer w (chat_id (chat message)) msg (Some "Markdown") (Some true)) ;;
      (* Update commands based on user type *)
      update_user_commands w message is_admin is_premium
  end.

(** [command_help_handler(message)], registered for [Command("help")]. *)
Definition command_help_handler (w : World) (message : Message) : M unit :=
  match from_user message with
  | None => ret tt
  | Some u =>
      let locale := or_str (user_language_code u) "en" in
      let is_admin := user_id u =? BOT_ADMIN_ID in
      let is_premium := or_bool (user_is_premium u) false in
      let help_text := (t locale "help.header" [] ++ nl ++ nl)%string in
      let help_text :=
        (help_text ++
         t locale "help.general"
           [ ("cmdStart", t locale "cmd.start" []);
             ("cmdHelp", t locale "cmd.help" []);
             ("cmdQueue", t locale "cmd.queue" []);
             ("cmdProfile", t locale "cmd.profile" []);
             ("cmdBugs", t locale "cmd.bugs" []) ])%string in
      (* Show premium commands only for premium users *)
      let help_text :=
        if is_premium
        then (help_text ++ (nl ++
               t locale "help.premium"
                 [ ("cmdMonitor", t locale "cmd.monitor" []);
                   ("cmdUnmonitor", t locale "cmd.unmonitor" []) ]))%string
        else help_text in
      let help_text :=
        if is_admin
        then (help_text ++ (nl ++
               t locale "help.admin"
                 [ ("cmdUsers", t locale "cmd.users" []);
                   ("cmdHistory", t locale "cmd.history" []);
                   ("cmdBlock", t locale "cmd.block" []);
                   ("cmdUnblock", t locale "cmd.unblock" []);
                   ("cmdBlocklist", t locale "cmd.blocklist" []);
                   ("cmdRestart", t locale "cmd.restart" []);
                   ("cmdStatus", t locale "cmd.status" []);
                   ("cmdListbugs", t locale "cmd.listbugs" []) ]))%string
        else help_text in
      call (EvAnswer (chat_id (chat message)) help_text (Some "Markdown") None)
           (answer w (chat_id (chat message)) help_text (Some "Markdown") None)
  end.

(** The catch-all handlers of the three routers. *)
Definition not_implemented_handler (w : World) (message : Message) : M unit :=
  call (EvAnswer (chat_id (chat message)) "User Not implemented!!!" None None)
       (answer w (chat_id (chat message)) "User Not implemented!!!" None None).

Definition not_implemented_premium_handler (w : World) (message : Message) : M unit :=
  call (EvAnswer (chat_id (chat message)) "Premium Not implemented!!!" None None)
       (answer w (chat_id (chat message)) "Premium Not implemented!!!" None None).

Definition not_implemented_admin_handler (w : World) (message : Message) : M unit :=
  call (EvAnswer (chat_id (chat message)) "Admin Not implemented!!!" None None)
       (answer w (chat_id (chat message)) "Admin Not implemented!!!" None None).

End Handlers.

(** ** The routers *)

(** The filter classes of [bot.filters] and the middleware class of
    [bot.middlewares] that the module instantiates. *)
Inductive Filter : Type := IsAdmin | IsPremium.
Inductive Middleware : Type := LongOperation.

(** The aiogram command filters given to the [message] decorators. *)
Inductive Matcher : Type :=
| CommandStart
| Command (name : string).

(** The five coroutines the module registers. *)
Inductive Handler : Type :=
| h_command_start_handler
| h_command_help_handler
| h_not_implemented_handler
| h_not_implemented_premium_handler
| h_not_implemented_admin_handler.

(** What a [Router()] accumulates on its [message] observer. *)
Record Router : Type := mkRouter {
  message_middlewares : list Middleware;
  message_filters : list Filter;
  message_handlers : list (list Matcher * Handler)
}.

Definition Router_new : Router :=
  {| message_middlewares := []; message_filters := []; message_handlers := [] |}.

(** [router.message.middleware(mw)] *)
Definition add_middleware (mw : Middleware) (r : Router) : Router :=
  {| message_middlewares := message_middlewares r ++ [mw];
     message_filters := message_filters r;
     message_handlers := message_handlers r |}.

(** [router.message.filter(f)] *)
Definition add_filter (f : Filter) (r : Router) : Router :=
  {| message_middlewares := message_middlewares r;
     message_filters := message_filters r ++ [f];
     message_handlers := message_handlers r |}.

(** The decorator [@router.message(...)] with the given command filters,
    applied to [h]. *)
Definition register (matchers : list Matcher) (h : Handler) (r : Router) : Router :=
  {| message_middlewares := message_middlewares r;
     message_filters := message_filters r;
     message_handlers := message_handlers r ++ [(matchers, h)] |}.

(** The module namespace, as far as routers go: the global names bound to
    a router, in the order the bindings were made (a Python [dict] keeps
    its insertion order). *)
Definition Globals : Type := list (string * Router).

Fixpoint lookup (name : string) (g : Globals) : option Router :=
  match g with
  | [] => None
  | (n, r) :: g' => if (n =? name)%string then Some r else lookup name g'
  end.

(** [name = Router()]: a new binding, or a new value for a bound name. *)
Fixpoint assign (name : string) (r : Router) (g : Globals) : Globals :=
  match g with
  | [] => [(name, r)]
  | (n, r') :: g' =>
      if (n =? name)%string then (n, r) :: g' else (n, r') :: assign name r g'
  end.

(** A method call that changes the router bound to [name] in place. *)
Fixpoint update (name : string) (f : Router -> Router) (g : Globals) : Globals :=
  match g with
  | [] => []
  | (n, r) :: g' =>
      if (n =? name)%string then (n, f r) :: g' else (n, r) :: update name f g'
  end.

(** The router statements of the module, in the order the import executes
    them. *)
Definition module_statements : list (Globals -> Globals) :=
  [ (* Create routers *)
    assign "root_router" Router_new;
    assign "admin_router" Router_new;
    assign "premium_router" Router_new;
    (* Apply middleware to root router *)
    update "root_router" (add_middleware LongOperation);
    (* Apply filters *)
    update "admin_router" (add_filter IsAdmin);
    update "premium_router" (add_filter IsPremium);
    (* Command handlers *)
    update "root_router" (register [CommandStart] h_command_start_handler);
    update "root_router" (register [Command "help"] h_command_help_handler);
    (* All other handlers: not implemented *)
    update "root_router" (register [] h_not_implemented_handler);
    update "premium_router" (register [] h_not_implemented_premium_handler);
    update "admin_router" (register [] h_not_implemented_admin_handler) ].

(** The namespace once the module is imported. *)
Definition module_globals : Globals :=
  fold_left (fun g stmt => stmt g) module_statements [].

(** [get_routers()]: [[root_router, admin_router, premium_router]]; reading
    an unbound global is a [NameError], here [None]. *)
Definition get_routers : option (list Router) :=
  match lookup "root_router" module_globals,
        lookup "admin_router" module_globals,
        lookup "premium_router" module_globals with
  | Some root, Some admin, Some premium => Some [root; admin; premium]
  | _, _, _ => None
  end.

(** The coroutine behind each registered handler. *)
Definition run_handler (t : string -> string -> list (string * string) -> string)
           (BOT_ADMIN_ID : Z) (h : Handler) : World -> Message -> M unit :=
  match h with
  | h_command_start_handler => command_start_handler t BOT_ADMIN_ID
  | h_command_help_handler => command_help_handler t BOT_ADMIN_ID
  | h_not_implemented_handler => not_implemented_handler
  | h_not_implemented_premium_handler => not_implemented_premium_handler
  | h_not_implemented_admin_handler => not_implemented_admin_handler
  end.

(** Modelled from the spec: the filter classes [IsAdmin] and [IsPremium] of
    [bot.filters], which the module imports.  The admin predicate is "sender
    identifier equals configured admin identity", the premium predicate is
    "sender's premium flag is true"; a message without a sender passes
    neither. *)
Definition allows (BOT_ADMIN_ID : Z) (f : Filter) (message : Message) : bool :=
  match from_user message with
  | None => false
  | Some u =>
      match f with
      | IsAdmin => user_id u =? BOT_ADMIN_ID
      | IsPremium => match user_is_premium u with Some true => true | _ => false end
      end
  end.

(** A router lets a message through when each of its filters does. *)
Definition router_allows (BOT_ADMIN_ID : Z) (r : Router) (message : Message) : bool :=
  forallb (fun f => allows BOT_ADMIN_ID f message) (message_filters r).

(** ** The statements' vocabulary *)

(** The command names of the three blocks of the menu. *)
Definition base_names : list string :=
  ["start"; "help"; "queue"; "profile"; "bugs"].

Definition premium_names : list string :=
  ["monitor"; "unmonitor"].

Definition admin_names : list string :=
  ["users"; "history"; "block"; "unblock"; "blocklist"; "status"; "restart";
   "bugreport"; "bugs"; "reset_auth"; "flush"; "welcome"].

(** The menu a role is entitled to: base, then premium, then admin. *)
Definition menu_names (admin premium : bool) : list string :=
  base_names ++ (if premium then premium_names else [])
             ++ (if admin then admin_names else []).

(** The sections of the help text. *)
Inductive help_section : Type :=
| HelpHeader
| HelpGeneral
| HelpPremium
| HelpAdmin.

(** The sections a role is shown, in reading order. *)
Definition help_sections (role : RoleSnapshot) : list help_section :=
  [HelpHeader; HelpGeneral]
    ++ (if is_premium role then [HelpPremium] else [])
    ++ (if is_admin role then [HelpAdmin] else []).

(** The localized text of a section, with the line feeds that separate it
    from its neighbours: the header is followed by an empty line, the
    premium and the admin sections start on a new line. *)
Definition section_text (t : string -> string -> list (string * string) -> string)
           (loc : string) (s : help_section) : string :=
  match s with
  | HelpHeader => (t loc "help.header" [] ++ nl ++ nl)%string
  | HelpGeneral =>
      t loc "help.general"
        [ ("cmdStart", t loc "cmd.start" []);
          ("cmdHelp", t loc "cmd.help" []);
          ("cmdQueue", t loc "cmd.queue" []);
          ("cmdProfile", t loc "cmd.profile" []);
          ("cmdBugs", t loc "cmd.bugs" []) ]
  | HelpPremium =>
      (nl ++ t loc "help.premium"
               [ ("cmdMonitor", t loc "cmd.monitor" []);
                 ("cmdUnmonitor", t loc "cmd.unmonitor" []) ])%string
  | HelpAdmin =>
      (nl ++ t loc "help.admin"
               [ ("cmdUsers", t loc "cmd.users" []);
                 ("cmdHistory", t loc "cmd.history" []);
                 ("cmdBlock", t loc "cmd.block" []);
                 ("cmdUnblock", t loc "cmd.unblock" []);
                 ("cmdBlocklist", t loc "cmd.blocklist" []);
                 ("cmdRestart", t loc "cmd.restart" []);
                 ("cmdStatus", t loc "cmd.status" []);
                 ("cmdListbugs", t loc "cmd.listbugs" []) ])%string
  end.

(** The sections of a help text, one after the other. *)
Definition render_help (t : string -> string -> list (string * string) -> string)
           (loc : string) (l : list help_section) : string :=
  String.concat "" (map (section_text t loc) l).

(** The chat schema and the user schema that [command_start_handler] hands
    to the repositories. *)
Definition chat_data_of (w : World) (message : Message) : ChatSchema :=
  {| cs_id := chat_id (chat message);
     cs_type := chat_type (chat message);
     cs_title := chat_title (chat message);
     cs_username := chat_username (chat message);
     cs_first_name := chat_first_name (chat message);
     cs_last_name := chat_last_name (chat message);
     cs_is_forum := or_bool (chat_is_forum (chat message)) false;
     cs_created_at := or_datetime (chat_created_at (chat message)) (now w) |}.

Definition user_data_of (u : User) : UserCreate :=
  {| uc_chat_id := user_id u;
     uc_username := or_str (user_username u) "";
     uc_is_bot := user_is_bot u;
     uc_is_premium := or_bool (user_is_premium u) false |}.

(** The welcome reply of [command_start_handler]. *)
Definition welcome_event (t : string -> string -> list (string * string) -> string)
           (message : Message) (u : User) : event :=
  EvAnswer (chat_id (chat message))
           (t (or_str (user_language_code u) "en") "start.instructions" [])
           (Some "Markdown") (Some true).

(** The same world with a storage whose two repository operations succeed. *)
Definition with_working_storage (w : World) : World :=
  {| get_session := get_session w;
     try_create_chat := fun _ => Ok tt;
     save_user := fun _ => Ok tt;
     session_close := session_close w;
     now := now w;
     answer := answer w;
     set_my_commands := set_my_commands w |}.

(** The three steps of [command_start_handler] once it has its session:
    the [try]/[except]/[finally] statement that persists the chat and the
    user, then the welcome reply followed by the menu update. *)
Definition persistence_block (w : World) (message : Message) (u : User) : M unit :=
  try_finally
    (try_except_Exception
       (call (EvTryCreateChat (chat_data_of w message))
             (try_create_chat w (chat_data_of w message)) ;;
        call (EvSaveUser (user_data_of u)) (save_user w (user_data_of u)) ;;
        LOG DEBUG "User %d started the bot" [LInt (user_id u)])
       (fun error =>
          LOG EXCEPTION "Failed to save user on /start: %s" [LExc error]))
    (call EvSessionClose (session_close w)).

Definition welcome_and_menu (t : string -> string -> list (string * string) -> string)
           (BOT_ADMIN_ID : Z) (w : World) (message : Message) (u : User) : M unit :=
  call (welcome_event t message u)
       (answer w (chat_id (chat message))
               (t (or_str (user_language_code u) "en") "start.instructions" [])
               (Some "Markdown") (Some true)) ;;
  update_user_commands t w message
    (user_id u =? BOT_ADMIN_ID) (or_bool (user_is_premium u) false).

(** The order of a [/start] trace, read left to right by a three-state
    automaton: [Persisting] until the session is closed, [Closed] until the
    welcome reply, [Replied] after it.  A storage call is accepted only in
    [Persisting], a reply only in [Closed], a menu push only in [Replied];
    log records are accepted everywhere. *)
Inductive phase : Type := Persisting | Closed | Replied.

Definition phase_step (p : phase) (ev : event) : option phase :=
  match ev, p with
  | EvLog _ _ _, _ => Some p
  | (EvGetSession | EvTryCreateChat _ | EvSaveUser _), Persisting => Some Persisting
  | EvSessionClose, Persisting => Some Closed
  | EvAnswer _ _ _ _, Closed => Some Replied
  | EvSetMyCommands _ _ _, Replied => Some Replied
  | _, _ => None
  end.

Fixpoint run_phases (p : phase) (tr : trace) : option phase :=
  match tr with
  | [] => Some p
  | ev :: tr' =>
      match phase_step p ev with
      | Some p' => run_phases p' tr'
      | None => None
      end
  end.

Definition is_session_close (ev : event) : bool :=
  match ev with
  | EvSessionClose => true
  | _ => false
  end.

Definition is_repository_call (ev : event) : bool :=
  match ev with
  | EvTryCreateChat _ | EvSaveUser _ => true
  | _ => false
  end.

(** ** Concrete messages and worlds *)

Definition t_demo (loc key : string) (kwargs : list (string * string)) : string :=
  (loc ++ ":" ++ key)%string.

Definition alice : User :=
  {| user_id := 7; user_is_bot := false; user_is_premium := Some true;
     user_language_code := Some "es"; user_username := Some "alice" |}.

Definition bob : User :=
  {| user_id := 8; user_is_bot := false; user_is_premium := None;
     user_language_code := None; user_username := None |}.

Definition private_chat (id : Z) : Chat :=
  {| chat_id := id; chat_type := "private"; chat_title := None;
     chat_username := None; chat_first_name := None; chat_last_name := None;
     chat_is_forum := None; chat_created_at := None |}.

Definition the_bot : Bot := {| bot_id := 1 |}.

Definition msg_from (u : User) : Message :=
  {| from_user := Some u; chat := private_chat (user_id u); bot := Some the_bot |}.

Definition msg_no_sender : Message :=
  {| from_user := None; chat := private_chat 9; bot := Some the_bot |}.

Definition msg_no_bot (u : User) : Message :=
  {| from_user := Some u; chat := private_chat (user_id u); bot := None |}.

Definition db_error : exn := ExceptionInst "OperationalError" "database is locked".
Definition interrupt : exn := BaseExceptionInst "KeyboardInterrupt" "".

(** Every collaborator answers. *)
Definition world_ok : World :=
  {| get_session := Ok tt;
     try_create_chat := fun _ => Ok tt;
     save_user := fun _ => Ok tt;
     session_close := Ok tt;
     now := 1700000000;
     answer := fun _ _ _ _ => Ok tt;
     set_my_commands := fun _ _ _ => Ok true |}.

(** The user repository raises. *)
Definition world_user_fails : World :=
  {| get_session := Ok tt;
     try_create_chat := fun _ => Ok tt;
     save_user := fun _ => Raise db_error;
     session_close := Ok tt;
     now := 1700000000;
     answer := fun _ _ _ _ => Ok tt;
     set_my_commands := fun _ _ _ => Ok true |}.

(** The user repository is interrupted by a [BaseException]. *)
Definition world_interrupted : World :=
  {| get_session := Ok tt;
     try_create_chat := fun _ => Ok tt;
     save_user := fun _ => Raise interrupt;
     session_close := Ok tt;
     now := 1700000000;
     answer := fun _ _ _ _ => Ok tt;
     set_my_commands := fun _ _ _ => Ok true |}.

(** The transport does not accept the menu. *)
Definition world_menu_refused : World :=
  {| get_session := Ok tt;
     try_create_chat := fun _ => Ok tt;
     save_user := fun _ => Ok tt;
     session_close := Ok tt;
     now := 1700000000;
     answer := fun _ _ _ _ => Ok tt;
     set_my_commands := fun _ _ _ => Ok false |}.

(** ** Further vocabulary: failures, descriptions, catch-alls *)

Definition is_log_event (ev : event) : bool :=
  match ev with
  | EvLog _ _ _ => true
  | _ => false
  end.

Definition is_error_record (ev : event) : bool :=
  match ev with
  | EvLog ERROR _ _ | EvLog EXCEPTION _ _ => true
  | _ => false
  end.

(** The command lists of the menu pushes of a trace, descriptions
    included. *)
Fixpoint pushed_commands (tr : trace) : list (list BotCommand) :=
  match tr with
  | [] => []
  | EvSetMyCommands _ cmds _ :: tr' => cmds :: pushed_commands tr'
  | _ :: tr' => pushed_commands tr'
  end.

(** The description shown beside a command: the localization of
    [cmd.<command>], but for [bugreport], which borrows the text of
    [cmd.listbugs], and for [reset_auth], whose text is not localized. *)
Definition command_description
           (t : string -> string -> list (string * string) -> string)
           (loc name : string) : string :=
  if (name =? "reset_auth")%string then "Reset Telegram auth code"
  else if (name =? "bugreport")%string then t loc "cmd.listbugs" []
  else t loc ("cmd." ++ name)%string [].

Definition menu_commands
           (t : string -> string -> list (string * string) -> string)
           (loc : string) (admin premium : bool) : list BotCommand :=
  map (fun name => mkBotCommand name (command_description t loc name))
      (menu_names admin premium).

(** The log records [update_user_commands] writes before its push. *)
Definition menu_records (u : User) (admin premium : bool) : trace :=
  [EvLog DEBUG "Updating commands for user %d, is_admin: %s, is_premium: %s"
         [LInt (user_id u); LBool admin; LBool premium]]
    ++ (if premium then [EvLog DEBUG "Adding premium commands" []] else [])
    ++ (if admin then [EvLog DEBUG "Adding admin commands" []] else [])
    ++ [EvLog DEBUG "Updating commands for user %d" [LInt (user_id u)]].

(** The handler a router falls back on: its last registration, when that
    one has no command filter. *)
Definition catch_all (r : Router) : option Handler :=
  match rev (message_handlers r) with
  | ([], h) :: _ => Some h
  | _ => None
  end.

(** A supergroup: the chat is not the sender. *)
Definition msg_in_group (u : User) : Message :=
  {| from_user := Some u;
     chat := {| chat_id := -1001; chat_type := "supergroup";
                chat_title := Some "stories"; chat_username := None;
                chat_first_name := None; chat_last_name := None;
                chat_is_forum := Some true; chat_created_at := None |};
     bot := Some the_bot |}.

Definition api_error : exn := ExceptionInst "TelegramBadRequest" "chat not found".

(** No session can be obtained. *)
Definition world_no_session : World :=
  {| get_session := Raise db_error;
     try_create_chat := fun _ => Ok tt;
     save_user := fun _ => Ok tt;
     session_close := Ok tt;
     now := 1700000000;
     answer := fun _ _ _ _ => Ok tt;
     set_my_commands := fun _ _ _ => Ok true |}.

(** The chat repository raises. *)
Definition world_chat_fails : World :=
  {| get_session := Ok tt;
     try_create_chat := fun _ => Raise db_error;
     save_user := fun _ => Ok tt;
     session_close := Ok tt;
     now := 1700000000;
     answer := fun _ _ _ _ => Ok tt;
     set_my_commands := fun _ _ _ => Ok true |}.

(** The user repository raises, and so does the close of the session. *)
Definition world_close_fails : World :=
  {| get_session := Ok tt;
     try_create_chat := fun _ => Ok tt;
     save_user := fun _ => Raise interrupt;
     session_close := Raise db_error;
     now := 1700000000;
     answer := fun _ _ _ _ => Ok tt;
     set_my_commands := fun _ _ _ => Ok true |}.

(** The transport raises on every reply. *)
Definition world_answer_fails : World :=
  {| get_session := Ok tt;
     try_create_chat := fun _ => Ok tt;
     save_user := fun _ => Ok tt;
     session_close := Ok tt;
     now := 1700000000;
     answer := fun _ _ _ _ => Raise api_error;
     set_my_commands := fun _ _ _ => Ok true |}.

(** The transport raises on every menu push. *)
Definition world_menu_raises : World :=
  {| get_session := Ok tt;
     try_create_chat := fun _ => Ok tt;
     save_user := fun _ => Ok tt;
     session_close := Ok tt;
     now := 1700000000;
     answer := fun _ _ _ _ => Ok tt;
     set_my_commands := fun _ _ _ => Raise api_error |}.

(** ** Properties *)

(** *** The monad *)

Lemma bind_call {A B : Type} (ev : event) (r : result A) (k : A -> M B) :
  bind (call ev r) k =
  match r with
  | Ok a => (outcome (k a), ev :: events (k a))
  | Raise e => (Raise e, [ev])
  end.
Proof.
  unfold bind, call, outcome, events.
  destruct r as [a|e]; [destruct (k a)|]; reflexivity.
Qed.

Lemma events_bind_Ok {A B : Type} (m : M A) (k : A -> M B) (a : A) :
  outcome m = Ok a ->
  bind m k = (outcome (k a), events m ++ events (k a)).
Proof.
  destruct m as [r tr]; simpl; intros ->. unfold bind.
  destruct (k a); reflexivity.
Qed.

Lemma events_bind_Raise {A B : Type} (m : M A) (k : A -> M B) (e : exn) :
  outcome m = Raise e ->
  bind m k = (Raise e, events m).
Proof. destruct m as [r tr]; simpl; intros ->. reflexivity. Qed.

Lemma events_bind {A B : Type} (m : M A) (k : A -> M B) :
  events (bind m k) =
  events m ++ match outcome m with
              | Ok a => events (k a)
              | Raise _ => []
              end.
Proof.
  destruct m as [[a|e] tr]; unfold bind, events, outcome; simpl.
  - destruct (k a); reflexivity.
  - now rewrite app_nil_r.
Qed.

(** *** The phases of a trace *)

Lemma run_phases_app (tr1 tr2 : trace) :
  forall p,
    run_phases p (tr1 ++ tr2) =
    match run_phases p tr1 with
    | Some p' => run_phases p' tr2
    | None => None
    end.
Proof.
  induction tr1 as [|ev tr1 IH]; intros p; simpl; [reflexivity|].
  destruct (phase_step p ev) as [p'|]; [apply IH | reflexivity].
Qed.

(** A trace that leaves [Persisting] closed its session, once. *)
Lemma left_persisting_closed (tr : trace) (q : phase) :
  run_phases Persisting tr = Some q -> q <> Persisting -> In EvSessionClose tr.
Proof.
  induction tr as [|ev tr IH]; simpl; intros Hrun Hq.
  - injection Hrun as <-. now elim Hq.
  - destruct ev; simpl in Hrun; try discriminate Hrun; auto.
Qed.

(** Past [Persisting] there is no storage call, and no way back. *)
Lemma past_persisting (tr : trace) :
  forall p q,
    p <> Persisting -> run_phases p tr = Some q ->
    q <> Persisting /\ forallb (fun ev => negb (is_storage_event ev)) tr = true.
Proof.
  induction tr as [|ev tr IH]; simpl; intros p q Hp Hrun.
  - injection Hrun as <-. auto.
  - destruct ev, p; simpl in Hrun; try discriminate Hrun; try (now elim Hp);
      simpl; (eapply IH; [|eassumption]); discriminate.
Qed.

Lemma replied_stays (tr : trace) (q : phase) :
  run_phases Replied tr = Some q -> q = Replied.
Proof.
  induction tr as [|ev tr IH]; simpl; intros Hrun.
  - now injection Hrun as <-.
  - destruct ev; simpl in Hrun; try discriminate Hrun; auto.
Qed.

(** A trace that reaches [Replied] holds a reply. *)
Lemma reached_replied (tr : trace) :
  forall p,
    p <> Replied -> run_phases p tr = Some Replied ->
    existsb is_answer_event tr = true.
Proof.
  induction tr as [|ev tr IH]; simpl; intros p Hp Hrun.
  - injection Hrun as ->. now elim Hp.
  - destruct ev, p; simpl in Hrun; try discriminate Hrun; try (now elim Hp);
      simpl; try reflexivity; (eapply IH; [|eassumption]); discriminate.
Qed.

(** A trace that has not reached [Replied] holds no menu push. *)
Lemma before_replied (tr : trace) :
  forall p q,
    run_phases p tr = Some q -> q <> Replied ->
    forallb (fun ev => negb (is_set_commands_event ev)) tr = true.
Proof.
  induction tr as [|ev tr IH]; simpl; intros p q Hrun Hq; [reflexivity|].
  destruct ev, p; simpl in Hrun; try discriminate Hrun;
    simpl; try (eapply IH; eauto).
  apply replied_stays in Hrun. now elim Hq.
Qed.

(** The session is closed once on the way out of [Persisting] and never
    afterwards. *)
Lemma closes_counted (tr : trace) :
  forall p q,
    run_phases p tr = Some q ->
    List.length (filter is_session_close tr) =
    match p, q with
    | Persisting, (Closed | Replied) => 1%nat
    | _, _ => 0%nat
    end.
Proof.
  induction tr as [|ev tr IH]; simpl; intros p q Hrun.
  - injection Hrun as <-. now destruct p.
  - destruct (phase_step p ev) as [p'|] eqn:Hstep; [|discriminate Hrun].
    specialize (IH _ _ Hrun).
    assert (Hq : p' <> Persisting -> q <> Persisting)
      by (intros Hp'; eapply past_persisting; eauto).
    destruct ev, p; simpl in Hstep; try discriminate Hstep;
      injection Hstep as <-; simpl; rewrite IH;
      try reflexivity; destruct q; try reflexivity;
      elim Hq; (discriminate || reflexivity).
Qed.

(** Only transport events carry a menu. *)
Lemma pushed_menus_transport (tr : trace) :
  pushed_menus (filter is_transport_event tr) = pushed_menus tr.
Proof.
  induction tr as [|ev tr IH]; simpl; [reflexivity|].
  destruct ev; simpl; rewrite ?IH; reflexivity.
Qed.

(** *** Strings *)

Lemma append_assoc (a b c : string) :
  ((a ++ b) ++ c)%string = (a ++ (b ++ c))%string.
Proof. induction a as [|ch a IH]; simpl; [reflexivity | now rewrite IH]. Qed.

Section Properties.

Variable t : string -> string -> list (string * string) -> string.
Variable BOT_ADMIN_ID : Z.

(** *** The command menu *)

(** Whatever the transport answers, a message with a sender and a bot
    makes [update_user_commands] push once, to the chat of the message,
    the menu of the role it was given. *)
Lemma update_user_commands_pushes (w : World) (message : Message)
      (u : User) (b : Bot) (admin premium : bool) :
  from_user message = Some u ->
  bot message = Some b ->
  pushed_menus (events (update_user_commands t w message admin premium)) =
  [(menu_names admin premium, BotCommandScopeChat (chat_id (chat message)))].
Proof.
  intros Hu Hb. unfold update_user_commands. rewrite Hu, Hb.
  destruct admin, premium; unfold bind, LOG, call, ret; simpl;
    match goal with
    | |- context [set_my_commands ?w ?b ?c ?s] =>
        destruct (set_my_commands w b c s) as [[|]|e]
    end; reflexivity.
Qed.

(** C1. For every role, the command list that [update_user_commands]
    pushes is the base list [start, help, queue, profile, bugs], followed
    by [monitor, unmonitor] exactly when the role is premium, followed by
    the twelve admin commands in their declared order exactly when the
    role is admin; for an admin the list holds [bugs] twice. *)
Theorem update_user_commands_menu (w : World) (message : Message)
        (u : User) (b : Bot) (admin premium : bool) :
  from_user message = Some u ->
  bot message = Some b ->
  exists names : list string,
    map fst (pushed_menus (events (update_user_commands t w message admin premium)))
      = [names]
    /\ names =
         ["start"; "help"; "queue"; "profile"; "bugs"]
           ++ (if premium then ["monitor"; "unmonitor"] else [])
           ++ (if admin
               then ["users"; "history"; "block"; "unblock"; "blocklist";
                     "status"; "restart"; "bugreport"; "bugs"; "reset_auth";
                     "flush"; "welcome"]
               else [])
    /\ (admin = true -> count_occ string_dec names "bugs" = 2%nat)
    /\ (admin = false -> count_occ string_dec names "bugs" = 1%nat).
Proof.
  intros Hu Hb. exists (menu_names admin premium).
  rewrite (update_user_commands_pushes w message u b admin premium Hu Hb).
  split; [reflexivity|]. split; [reflexivity|].
  split; intros ->; destruct premium; reflexivity.
Qed.

(** *** The role *)

(** C3. The role is a function of the sender and of the configured admin
    identifier alone: admin iff the sender's identifier is the configured
    one, premium as the sender's flag says and not premium without a flag,
    locale the sender's language tag when there is a non-empty one and
    [en] otherwise; a sender with every optional field absent is still
    classified. *)
Theorem classify_role (u : User) :
  (is_admin (classify BOT_ADMIN_ID u) = true <-> user_id u = BOT_ADMIN_ID)
  /\ is_premium (classify BOT_ADMIN_ID u) =
       match user_is_premium u with
       | Some flag => flag
       | None => false
       end
  /\ locale (classify BOT_ADMIN_ID u) =
       match user_language_code u with
       | Some tag => if (tag =? "")%string then "en" else tag
       | None => "en"
       end
  /\ classify BOT_ADMIN_ID
       {| user_id := user_id u; user_is_bot := user_is_bot u;
          user_is_premium := None; user_language_code := None;
          user_username := None |} =
     {| is_admin := user_id u =? BOT_ADMIN_ID; is_premium := false;
        locale := "en"; is_bot := user_is_bot u |}.
Proof.
  unfold classify; cbn [is_admin is_premium locale user_id user_is_bot
                        user_is_premium user_language_code].
  split; [apply Z.eqb_eq|].
  split; [destruct (user_is_premium u) as [[|]|]; reflexivity|].
  split; [|reflexivity].
  destruct (user_language_code u) as [[|c tag]|]; reflexivity.
Qed.

(** *** The help text *)

Lemma help_text_sections (loc : string) (role : RoleSnapshot) :
  render_help t loc (help_sections role) =
  (let help_text := (t loc "help.header" [] ++ nl ++ nl)%string in
   let help_text := (help_text ++ section_text t loc HelpGeneral)%string in
   let help_text :=
     if is_premium role
     then (help_text ++ section_text t loc HelpPremium)%string
     else help_text in
   if is_admin role
   then (help_text ++ section_text t loc HelpAdmin)%string
   else help_text).
Proof.
  unfold render_help, help_sections.
  destruct (is_premium role), (is_admin role);
    cbn [map app String.concat section_text];
    cbn zeta; rewrite ?append_assoc; reflexivity.
Qed.

(** C5. For every sender the help handler sends one reply, made of the
    header and the general section, then the premium section iff the role
    is premium, then the admin section iff the role is admin; an admin who
    is premium is sent header, general, premium and admin, once each, in
    that order. *)
Theorem help_reply_sections (w : World) (message : Message) (u : User) :
  from_user message = Some u ->
  let role := classify BOT_ADMIN_ID u in
  events (command_help_handler t BOT_ADMIN_ID w message) =
    [EvAnswer (chat_id (chat message))
              (render_help t (locale role) (help_sections role))
              (Some "Markdown") None]
  /\ (exists rest, help_sections role = HelpHeader :: HelpGeneral :: rest)
  /\ (In HelpPremium (help_sections role) <-> is_premium role = true)
  /\ (In HelpAdmin (help_sections role) <-> is_admin role = true)
  /\ NoDup (help_sections role)
  /\ (is_premium role = true -> is_admin role = true ->
      help_sections role = [HelpHeader; HelpGeneral; HelpPremium; HelpAdmin]).
Proof.
  intros Hu role. split.
  - rewrite help_text_sections.
    unfold command_help_handler. rewrite Hu. subst role.
    cbn [classify is_admin is_premium locale section_text].
    destruct (or_bool (user_is_premium u) false), (user_id u =? BOT_ADMIN_ID);
      reflexivity.
  - unfold help_sections.
    destruct (is_premium role), (is_admin role); cbn [app];
      repeat match goal with
             | |- _ /\ _ => split
             | |- exists rest, _ => eexists; reflexivity
             | |- NoDup _ => repeat constructor; simpl; intuition discriminate
             | |- _ <-> _ => simpl; intuition discriminate
             | |- _ -> _ -> _ = _ =>
                 intros Hp Ha; (discriminate Hp || discriminate Ha || reflexivity)
             end.
Qed.

(** *** The start handler, step by step *)

Lemma command_start_handler_steps (w : World) (message : Message) (u : User) :
  from_user message = Some u ->
  command_start_handler t BOT_ADMIN_ID w message =
  (call EvGetSession (get_session w) ;;
   persistence_block w message u ;;
   welcome_and_menu t BOT_ADMIN_ID w message u).
Proof.
  intros Hu. unfold command_start_handler. rewrite Hu. reflexivity.
Qed.

(** The storage operations cannot reach the transport: the reply and the
    menu update are the same under any storage. *)
Lemma welcome_and_menu_storage (w : World) (message : Message) (u : User) :
  welcome_and_menu t BOT_ADMIN_ID (with_working_storage w) message u =
  welcome_and_menu t BOT_ADMIN_ID w message u.
Proof. reflexivity. Qed.

(** The [try] statement makes its repository calls, logs, and calls
    [session.close()] last, whatever its body did. *)
Lemma persistence_block_phases (w : World) (message : Message) (u : User) :
  run_phases Persisting (events (persistence_block w message u)) = Some Closed.
Proof.
  unfold persistence_block, try_finally, try_except_Exception, bind, call, LOG.
  destruct (try_create_chat w (chat_data_of w message)) as [[]|[c s|c s]];
    [destruct (save_user w (user_data_of u)) as [[]|[c s|c s]]| |];
    destruct (session_close w) as [[]|e']; reflexivity.
Qed.

(** A storage error is logged and swallowed: the block ends as the close
    of the session ends. *)
Lemma persistence_block_swallows (w : World) (message : Message) (u : User)
      (e : exn) :
  try_create_chat w (chat_data_of w message) = Raise e
  \/ (try_create_chat w (chat_data_of w message) = Ok tt
      /\ save_user w (user_data_of u) = Raise e) ->
  isinstance_Exception e = true ->
  outcome (persistence_block w message u) = session_close w
  /\ In (EvLog EXCEPTION "Failed to save user on /start: %s" [LExc e])
        (events (persistence_block w message u))
  /\ filter is_transport_event (events (persistence_block w message u)) = [].
Proof.
  intros Hfail He.
  unfold persistence_block, try_finally, try_except_Exception, bind, call, LOG.
  destruct Hfail as [Hchat|[Hchat Huser]]; rewrite Hchat; [|rewrite Huser];
    rewrite He; destruct (session_close w) as [[]|e']; simpl; auto 6.
Qed.

(** With a working storage the block ends as the close of the session
    ends, too, and it has touched no transport. *)
Lemma persistence_block_working (w : World) (message : Message) (u : User) :
  outcome (persistence_block (with_working_storage w) message u) = session_close w
  /\ filter is_transport_event
       (events (persistence_block (with_working_storage w) message u)) = [].
Proof.
  unfold persistence_block, try_finally, try_except_Exception, bind, call, LOG.
  cbn [with_working_storage try_create_chat save_user session_close].
  destruct (session_close w) as [[]|e']; simpl; auto.
Qed.

(** The menu update logs and pushes, nothing else. *)
Lemma update_user_commands_phases (w : World) (message : Message)
      (admin premium : bool) :
  run_phases Replied (events (update_user_commands t w message admin premium))
  = Some Replied.
Proof.
  unfold update_user_commands.
  destruct (from_user message) as [u|]; [|reflexivity].
  destruct (bot message) as [b|]; [|reflexivity].
  destruct admin, premium; unfold bind, LOG, call, ret; simpl;
    match goal with
    | |- context [set_my_commands ?w ?b ?c ?s] =>
        destruct (set_my_commands w b c s) as [[|]|e]
    end; reflexivity.
Qed.

Lemma welcome_and_menu_phases (w : World) (message : Message) (u : User) :
  run_phases Closed (events (welcome_and_menu t BOT_ADMIN_ID w message u))
  = Some Replied.
Proof.
  unfold welcome_and_menu. rewrite bind_call.
  destruct (answer w _ _ _ _) as [[]|e]; [|reflexivity].
  cbn [events snd welcome_event run_phases phase_step].
  apply update_user_commands_phases.
Qed.

(** Every trace of the start handler is in order, and it has left
    [Persisting] as soon as a session was obtained. *)
Lemma command_start_handler_phases (w : World) (message : Message) :
  exists q,
    run_phases Persisting (events (command_start_handler t BOT_ADMIN_ID w message))
    = Some q
    /\ (from_user message <> None -> get_session w = Ok tt -> q <> Persisting).
Proof.
  destruct (from_user message) as [u|] eqn:Hu.
  - rewrite (command_start_handler_steps w message u Hu), bind_call.
    destruct (get_session w) as [[]|e].
    + cbn [events snd run_phases phase_step].
      rewrite events_bind, run_phases_app, persistence_block_phases.
      destruct (outcome (persistence_block w message u)) as [[]|e].
      * rewrite welcome_and_menu_phases. eexists; split; [reflexivity|].
        discriminate.
      * eexists; split; [reflexivity|]. discriminate.
    + eexists; split; [reflexivity|]. discriminate.
  - unfold command_start_handler. rewrite Hu.
    eexists; split; [reflexivity|]. intros H; now elim H.
Qed.

(** *** The start handler *)

(** C8. A [/start] message without a sender makes the handler return at
    once: nothing is persisted, no reply is sent, no menu is pushed, no
    record is logged, no exception is raised. *)
Theorem start_without_sender (w : World) (message : Message) :
  from_user message = None ->
  outcome (command_start_handler t BOT_ADMIN_ID w message) = Ok tt
  /\ events (command_start_handler t BOT_ADMIN_ID w message) = [].
Proof.
  intros Hnone. unfold command_start_handler. rewrite Hnone. split; reflexivity.
Qed.

(** C2. When the chat creation or the user upsert raises an error during
    [/start], the error is logged and stays inside the handler: the handler
    ends, replies and pushes the menu as it does in the run where the
    storage works.  Once the session is closed, what escapes the handler is
    what escapes the reply and the menu update, the welcome reply is sent
    and, when it went through, the menu of the sender's role is pushed. *)
Theorem start_survives_storage_failure (w : World) (message : Message)
        (u : User) (e : exn) :
  from_user message = Some u ->
  get_session w = Ok tt ->
  try_create_chat w (chat_data_of w message) = Raise e
  \/ (try_create_chat w (chat_data_of w message) = Ok tt
      /\ save_user w (user_data_of u) = Raise e) ->
  isinstance_Exception e = true ->
  let failing := command_start_handler t BOT_ADMIN_ID w message in
  let working :=
    command_start_handler t BOT_ADMIN_ID (with_working_storage w) message in
  In (EvLog EXCEPTION "Failed to save user on /start: %s" [LExc e])
     (events failing)
  /\ outcome failing = outcome working
  /\ filter is_transport_event (events failing)
     = filter is_transport_event (events working)
  /\ (session_close w = Ok tt ->
      outcome failing = outcome (welcome_and_menu t BOT_ADMIN_ID w message u)
      /\ In (welcome_event t message u) (events failing)
      /\ (forall b,
            bot message = Some b ->
            answer w (chat_id (chat message))
                   (t (or_str (user_language_code u) "en") "start.instructions" [])
                   (Some "Markdown") (Some true) = Ok tt ->
            pushed_menus (events failing) =
            [(menu_names (user_id u =? BOT_ADMIN_ID)
                         (or_bool (user_is_premium u) false),
              BotCommandScopeChat (chat_id (chat message)))])).
Proof.
  intros Hu Hsession Hfail He failing working.
  destruct (persistence_block_swallows w message u e Hfail He)
    as (Hout & Hlog & Hquiet).
  destruct (persistence_block_working w message u) as (Hout' & Hquiet').
  subst failing working.
  rewrite (command_start_handler_steps w message u Hu).
  rewrite (command_start_handler_steps (with_working_storage w) message u Hu).
  rewrite !bind_call. cbn [with_working_storage get_session].
  rewrite Hsession, welcome_and_menu_storage.
  destruct (session_close w) as [[]|e'] eqn:Hclose.
  - (* the session is closed: both runs go on with the reply *)
    rewrite (events_bind_Ok _ _ tt Hout), (events_bind_Ok _ _ tt Hout').
    cbn [outcome events fst snd].
    split; [right; apply in_or_app; now left|].
    split; [reflexivity|].
    split.
    { cbn [filter is_transport_event is_answer_event is_set_commands_event orb].
      now rewrite !filter_app, Hquiet, Hquiet'. }
    intros _.
    split; [reflexivity|].
    assert (Hwelcome :
              exists rest,
                events (welcome_and_menu t BOT_ADMIN_ID w message u)
                = welcome_event t message u :: rest).
    { unfold welcome_and_menu. rewrite bind_call.
      destruct (answer w _ _ _ _) as [[]|e0]; eexists; reflexivity. }
    destruct Hwelcome as (rest & Hwelcome).
    split.
    { right. apply in_or_app. right. rewrite Hwelcome. now left. }
    intros b Hb Hanswer.
    rewrite <- pushed_menus_transport.
    cbn [filter is_transport_event is_answer_event is_set_commands_event orb].
    rewrite filter_app, Hquiet. cbn [app].
    rewrite pushed_menus_transport.
    unfold welcome_and_menu. rewrite bind_call, Hanswer.
    cbn [events snd welcome_event pushed_menus].
    now apply update_user_commands_pushes with (u := u) (b := b).
  - (* closing the session raises: both runs end there *)
    rewrite (events_bind_Raise _ _ e' Hout), (events_bind_Raise _ _ e' Hout').
    cbn [outcome events fst snd].
    split; [now right|].
    split; [reflexivity|].
    split; [|discriminate].
    cbn [filter is_transport_event is_answer_event is_set_commands_event orb].
    now rewrite Hquiet, Hquiet'.
Qed.

(** C4. In every run of the start handler, a reply is sent only after
    [session.close()] was called and before any menu push, with no storage
    call after it, and a menu push comes only after the reply.  When the
    persistence block has returned, the trace is the session and the
    block, then the welcome reply, then, if the reply went through, the
    whole of the menu update. *)
Theorem start_handler_order (w : World) (message : Message) :
  (forall tr1 ev tr2,
     events (command_start_handler t BOT_ADMIN_ID w message) = tr1 ++ ev :: tr2 ->
     (is_answer_event ev = true ->
        In EvSessionClose tr1
        /\ forallb (fun ev' => negb (is_set_commands_event ev')) tr1 = true
        /\ forallb (fun ev' => negb (is_storage_event ev')) tr2 = true)
     /\ (is_set_commands_event ev = true ->
          existsb is_answer_event tr1 = true
          /\ In EvSessionClose tr1
          /\ forallb (fun ev' => negb (is_storage_event ev')) tr2 = true))
  /\ (forall u,
        from_user message = Some u ->
        get_session w = Ok tt ->
        outcome (persistence_block w message u) = Ok tt ->
        events (command_start_handler t BOT_ADMIN_ID w message) =
        (EvGetSession :: events (persistence_block w message u))
          ++ welcome_event t message u
          :: match answer w (chat_id (chat message))
                          (t (or_str (user_language_code u) "en")
                             "start.instructions" [])
                          (Some "Markdown") (Some true) with
             | Ok _ =>
                 events (update_user_commands t w message
                           (user_id u =? BOT_ADMIN_ID)
                           (or_bool (user_is_premium u) false))
             | Raise _ => []
             end).
Proof.
  split.
  - intros tr1 ev tr2 Hsplit.
    destruct (command_start_handler_phases w message) as (q & Hrun & _).
    rewrite Hsplit, run_phases_app in Hrun.
    destruct (run_phases Persisting tr1) as [p1|] eqn:H1; [|discriminate Hrun].
    cbn [run_phases] in Hrun.
    destruct (phase_step p1 ev) as [p2|] eqn:Hstep; [|discriminate Hrun].
    split; intros Hev; destruct ev; try discriminate Hev;
      destruct p1; simpl in Hstep; try discriminate Hstep;
      injection Hstep as <-.
    + split; [eapply left_persisting_closed; eauto; discriminate|].
      split; [eapply before_replied; eauto; discriminate|].
      eapply past_persisting; [|eassumption]; discriminate.
    + split; [eapply reached_replied; [|eassumption]; discriminate|].
      split; [eapply left_persisting_closed; eauto; discriminate|].
      eapply past_persisting; [|eassumption]; discriminate.
  - intros u Hu Hsession Hpersist.
    rewrite (command_start_handler_steps w message u Hu), bind_call, Hsession.
    rewrite (events_bind_Ok _ _ tt Hpersist).
    unfold welcome_and_menu. rewrite bind_call.
    destruct (answer w _ _ _ _) as [[]|e0]; reflexivity.
Qed.

(** C7. Once the start handler has its session, it calls
    [session.close()] exactly once on every path, whatever the chat
    creation and the user upsert return or raise, and every repository
    call comes before that close. *)
Theorem session_always_closed (w : World) (message : Message) (u : User) :
  from_user message = Some u ->
  get_session w = Ok tt ->
  List.length (filter is_session_close
                 (events (command_start_handler t BOT_ADMIN_ID w message))) = 1%nat
  /\ (forall tr1 ev tr2,
        events (command_start_handler t BOT_ADMIN_ID w message)
          = tr1 ++ ev :: tr2 ->
        is_repository_call ev = true ->
        In EvSessionClose tr2).
Proof.
  intros Hu Hsession.
  destruct (command_start_handler_phases w message) as (q & Hrun & Hq).
  assert (Hq' : q <> Persisting) by (apply Hq; [rewrite Hu; discriminate|assumption]).
  split.
  - rewrite (closes_counted _ _ _ Hrun). destruct q; try reflexivity. now elim Hq'.
  - intros tr1 ev tr2 Hsplit Hev.
    rewrite Hsplit, run_phases_app in Hrun.
    destruct (run_phases Persisting tr1) as [p1|] eqn:H1; [|discriminate Hrun].
    cbn [run_phases] in Hrun.
    destruct (phase_step p1 ev) as [p2|] eqn:Hstep; [|discriminate Hrun].
    destruct ev; try discriminate Hev;
      destruct p1; simpl in Hstep; try discriminate Hstep;
      injection Hstep as <-; eapply left_persisting_closed; eauto.
Qed.

(** *** The menu push *)

(** C6. The menu is pushed once, with the scope of the chat of
    the message and no other.  When the transport answers the push with a
    falsy result, [update_user_commands] logs the failure as an error and
    returns without raising.  When the transport refuses the push by
    raising, nothing catches the exception: it leaves
    [update_user_commands], and no error record is written. *)
Theorem menu_push_scoped_and_tolerant (w : World) (message : Message)
        (u : User) (b : Bot) (admin premium : bool) :
  from_user message = Some u ->
  bot message = Some b ->
  let push := update_user_commands t w message admin premium in
  map snd (pushed_menus (events push))
    = [BotCommandScopeChat (chat_id (chat message))]
  /\ ((forall commands scope,
         In (EvSetMyCommands b commands scope) (events push) ->
         set_my_commands w b commands scope = Ok false) ->
      outcome push = Ok tt
      /\ exists tr,
           events push =
           tr ++ [EvLog ERROR "Failed to update commands for user %d"
                        [LInt (user_id u)]])
  /\ (forall e,
        (forall commands scope,
           In (EvSetMyCommands b commands scope) (events push) ->
           set_my_commands w b commands scope = Raise e) ->
        outcome push = Raise e
        /\ existsb is_error_record (events push) = false).
Proof.
  intros Hu Hb push. split.
  - subst push.
    now rewrite (update_user_commands_pushes w message u b admin premium Hu Hb).
  - subst push. unfold update_user_commands. rewrite Hu, Hb.
    destruct admin, premium; unfold bind, LOG, call, ret; simpl;
      match goal with
      | |- context [set_my_commands ?w ?b ?c ?s] =>
          destruct (set_my_commands w b c s) as [[|]|e0] eqn:Hanswer
      end; simpl; (split; [intros Hanswered | intros e Hanswered]).
    all: match type of Hanswer with
         | set_my_commands ?w ?b ?c ?s = _ =>
             specialize (Hanswered c s ltac:(simpl; tauto));
             rewrite Hanswer in Hanswered
         end.
    all: try discriminate Hanswered.
    all: try (injection Hanswered as <-; split; reflexivity).
    all: split; [reflexivity|];
      match goal with
      | |- exists tr, ?l = tr ++ [?x] => exists (removelast l); reflexivity
      end.
Qed.

(** C10. A message without a bot reference makes [update_user_commands]
    return at once, sender or not: no push, no log record, no exception.
    In the start handler the welcome reply is then the last thing that
    happens. *)
Theorem menu_update_skipped_without_bot (w : World) (message : Message)
        (admin premium : bool) :
  bot message = None ->
  update_user_commands t w message admin premium = (Ok tt, [])
  /\ (forall u,
        from_user message = Some u ->
        get_session w = Ok tt ->
        outcome (persistence_block w message u) = Ok tt ->
        answer w (chat_id (chat message))
               (t (or_str (user_language_code u) "en") "start.instructions" [])
               (Some "Markdown") (Some true) = Ok tt ->
        command_start_handler t BOT_ADMIN_ID w message =
        (Ok tt,
         EvGetSession :: events (persistence_block w message u)
           ++ [welcome_event t message u])).
Proof.
  intros Hb.
  assert (Hskip : forall a p, update_user_commands t w message a p = (Ok tt, [])).
  { intros a p. unfold update_user_commands. rewrite Hb.
    destruct (from_user message); reflexivity. }
  split; [apply Hskip|].
  intros u Hu Hsession Hpersist Hanswer.
  rewrite (command_start_handler_steps w message u Hu), bind_call, Hsession.
  rewrite (events_bind_Ok _ _ tt Hpersist).
  unfold welcome_and_menu. rewrite bind_call, Hanswer, Hskip. reflexivity.
Qed.

(** *** The routers *)

(** C9. The module binds the root router, the admin router and the
    premium router, in this order, and [get_routers] lists them in the
    same order; the root router has no filter, the admin router has the
    admin filter, which lets through the messages whose sender is the
    configured admin, and the premium router has the premium filter, which
    lets through the messages whose sender has the premium flag set. *)
Theorem get_routers_order :
  exists root admin premium,
    module_globals =
      [("root_router", root); ("admin_router", admin); ("premium_router", premium)]
    /\ get_routers = Some [root; admin; premium]
    /\ root =
         {| message_middlewares := [LongOperation];
            message_filters := [];
            message_handlers :=
              [ ([CommandStart], h_command_start_handler);
                ([Command "help"], h_command_help_handler);
                ([], h_not_implemented_handler) ] |}
    /\ admin =
         {| message_middlewares := [];
            message_filters := [IsAdmin];
            message_handlers := [ ([], h_not_implemented_admin_handler) ] |}
    /\ premium =
         {| message_middlewares := [];
            message_filters := [IsPremium];
            message_handlers := [ ([], h_not_implemented_premium_handler) ] |}
    /\ (forall message, router_allows BOT_ADMIN_ID root message = true)
    /\ (forall message,
          router_allows BOT_ADMIN_ID admin message = true
          <-> exists u, from_user message = Some u /\ user_id u = BOT_ADMIN_ID)
    /\ (forall message,
          router_allows BOT_ADMIN_ID premium message = true
          <-> exists u, from_user message = Some u
                        /\ user_is_premium u = Some true).
Proof.
  do 3 eexists.
  split; [reflexivity|]. split; [reflexivity|].
  do 3 (split; [reflexivity|]). split; [reflexivity|].
  split; intros message; unfold router_allows, allows;
    cbn -[Z.eqb]; rewrite andb_true_r;
    destruct (from_user message) as [u|].
  - rewrite Z.eqb_eq. split; [intros H; now exists u|].
    now intros (u' & [= <-] & H).
  - split; [discriminate|]. now intros (u' & [=] & _).
  - destruct (user_is_premium u) as [[|]|] eqn:Hflag.
    + split; [intros _; now exists u | reflexivity].
    + split; [discriminate|]. intros (u' & [= <-] & H). congruence.
    + split; [discriminate|]. intros (u' & [= <-] & H). congruence.
  - split; [discriminate|]. now intros (u' & [=] & _).
Qed.

(** A transport call that raises is another matter: nothing in
    [update_user_commands] catches it. *)
Lemma menu_push_raise_propagates (w : World) (message : Message)
      (u : User) (b : Bot) (admin premium : bool) (e : exn) :
  from_user message = Some u ->
  bot message = Some b ->
  (forall commands scope, set_my_commands w b commands scope = Raise e) ->
  outcome (update_user_commands t w message admin premium) = Raise e.
Proof.
  intros Hu Hb Hraise. unfold update_user_commands. rewrite Hu, Hb.
  destruct admin, premium; unfold bind, LOG, call, ret; simpl;
    rewrite Hraise; reflexivity.
Qed.

(** The start handler acts on the role of its sender: the user record it
    saves, the language of its reply and the menu it asks for are those of
    [classify]. *)
Lemma start_handler_uses_role (w : World) (message : Message) (u : User) :
  let role := classify BOT_ADMIN_ID u in
  user_data_of u =
    {| uc_chat_id := user_id u;
       uc_username := or_str (user_username u) "";
       uc_is_bot := is_bot role;
       uc_is_premium := is_premium role |}
  /\ welcome_and_menu t BOT_ADMIN_ID w message u =
     (call (EvAnswer (chat_id (chat message))
                     (t (locale role) "start.instructions" [])
                     (Some "Markdown") (Some true))
           (answer w (chat_id (chat message))
                   (t (locale role) "start.instructions" [])
                   (Some "Markdown") (Some true)) ;;
      update_user_commands t w message (is_admin role) (is_premium role)).
Proof. split; reflexivity. Qed.

(** *** The menu update, in full *)

(** What [update_user_commands] does for a message with a sender and a bot:
    its records, one push of the commands of the role with their
    descriptions, then a record that depends on the answer. *)
Lemma update_user_commands_run (w : World) (message : Message)
      (u : User) (b : Bot) (admin premium : bool) :
  from_user message = Some u ->
  bot message = Some b ->
  let commands :=
    menu_commands t (or_str (user_language_code u) "en") admin premium in
  let scope := BotCommandScopeChat (chat_id (chat message)) in
  update_user_commands t w message admin premium =
  (match set_my_commands w b commands scope with
   | Ok _ => Ok tt
   | Raise e => Raise e
   end,
   menu_records u admin premium
     ++ EvSetMyCommands b commands scope
     :: match set_my_commands w b commands scope with
        | Ok true =>
            [EvLog DEBUG "Commands updated for user %d" [LInt (user_id u)]]
        | Ok false =>
            [EvLog ERROR "Failed to update commands for user %d"
                   [LInt (user_id u)]]
        | Raise _ => []
        end).
Proof.
  intros Hu Hb commands scope. subst commands scope.
  unfold update_user_commands. rewrite Hu, Hb.
  destruct admin, premium;
    unfold bind, LOG, call, ret, menu_commands, menu_records,
      command_description; simpl;
    match goal with
    | |- context [set_my_commands ?w ?b ?c ?s] =>
        destruct (set_my_commands w b c s) as [[|]|e]
    end; reflexivity.
Qed.

(** X1. Descriptions: the one push of [update_user_commands] carries, for
    each command of the role's menu, the localization of [cmd.<command>] in
    the sender's language ([en] without one), except that [bugreport] is
    described by [cmd.listbugs] and [reset_auth] by a fixed English text. *)
Theorem menu_descriptions_localized (w : World) (message : Message)
        (u : User) (b : Bot) (admin premium : bool) :
  from_user message = Some u ->
  bot message = Some b ->
  exists commands,
    pushed_commands (events (update_user_commands t w message admin premium))
      = [commands]
    /\ map command commands = menu_names admin premium
    /\ Forall (fun c =>
                 description c =
                 if (command c =? "reset_auth")%string
                 then "Reset Telegram auth code"
                 else if (command c =? "bugreport")%string
                      then t (or_str (user_language_code u) "en") "cmd.listbugs" []
                      else t (or_str (user_language_code u) "en")
                             ("cmd." ++ command c)%string [])
              commands.
Proof.
  intros Hu Hb.
  exists (menu_commands t (or_str (user_language_code u) "en") admin premium).
  rewrite (update_user_commands_run w message u b admin premium Hu Hb).
  cbn [events snd]. split; [|split].
  - unfold menu_records.
    destruct admin, premium, (set_my_commands w b _ _) as [[|]|e]; reflexivity.
  - unfold menu_commands. rewrite map_map. cbn [command]. apply map_id.
  - unfold menu_commands. apply Forall_forall. intros c Hc.
    apply in_map_iff in Hc. destruct Hc as (name & <- & _). reflexivity.
Qed.

(** X2. [update_user_commands] raises exactly what the transport call
    raises and otherwise returns normally; it writes an error record
    exactly when the transport answers that the push was not accepted. *)
Theorem menu_update_outcome (w : World) (message : Message)
        (u : User) (b : Bot) (admin premium : bool) :
  from_user message = Some u ->
  bot message = Some b ->
  let push := update_user_commands t w message admin premium in
  let answered :=
    set_my_commands w b
      (menu_commands t (or_str (user_language_code u) "en") admin premium)
      (BotCommandScopeChat (chat_id (chat message))) in
  (forall e, outcome push = Raise e <-> answered = Raise e)
  /\ (outcome push = Ok tt <-> exists accepted, answered = Ok accepted)
  /\ (existsb is_error_record (events push) = true <-> answered = Ok false).
Proof.
  intros Hu Hb push answered. subst push answered.
  rewrite (update_user_commands_run w message u b admin premium Hu Hb).
  cbn [outcome events fst snd]. rewrite existsb_app.
  replace (existsb is_error_record (menu_records u admin premium)) with false
    by (destruct admin, premium; reflexivity).
  destruct (set_my_commands w b _ _) as [[|]|e0]; cbn;
    repeat split; intros; try discriminate; try congruence; eauto;
    match goal with
    | H : exists _, _ |- _ => destruct H; discriminate
    end.
Qed.

(** X3. [update_user_commands] acts only on a message that has both a
    sender and a bot: if either is missing it returns at once, without a
    record, and only then is its trace empty. *)
Theorem menu_update_needs_sender_and_bot (w : World) (message : Message)
        (admin premium : bool) :
  (from_user message = None \/ bot message = None ->
   update_user_commands t w message admin premium = (Ok tt, []))
  /\ (events (update_user_commands t w message admin premium) = [] ->
      from_user message = None \/ bot message = None).
Proof.
  split.
  - intros [Hnone|Hnone]; unfold update_user_commands; rewrite Hnone;
      [reflexivity | destruct (from_user message); reflexivity].
  - destruct (from_user message) as [u|] eqn:Hu; [|now left].
    destruct (bot message) as [b|] eqn:Hb; [|now right].
    rewrite (update_user_commands_run w message u b admin premium Hu Hb).
    cbn [events snd menu_records app]. discriminate.
Qed.

(** *** The help handler, errors included *)

(** X4. A [/help] message without a sender makes the help handler return
    at once: no reply, no record, no exception. *)
Theorem help_without_sender (w : World) (message : Message) :
  from_user message = None ->
  command_help_handler t BOT_ADMIN_ID w message = (Ok tt, []).
Proof.
  intros Hnone. unfold command_help_handler. rewrite Hnone. reflexivity.
Qed.

(** X5. For a sender, the help handler is its one [message.answer] call
    and nothing else: the trace is that single reply, with the help text
    of the sender's role, and the handler ends as the call ends, so an
    exception raised by the transport escapes the handler, unlogged. *)
Theorem help_ends_as_answer (w : World) (message : Message) (u : User) :
  from_user message = Some u ->
  let role := classify BOT_ADMIN_ID u in
  let text := render_help t (locale role) (help_sections role) in
  command_help_handler t BOT_ADMIN_ID w message =
  (answer w (chat_id (chat message)) text (Some "Markdown") None,
   [EvAnswer (chat_id (chat message)) text (Some "Markdown") None]).
Proof.
  intros Hu role text. subst text. rewrite help_text_sections.
  unfold command_help_handler. rewrite Hu. subst role.
  cbn [classify is_admin is_premium locale section_text].
  destruct (or_bool (user_is_premium u) false), (user_id u =? BOT_ADMIN_ID);
    reflexivity.
Qed.

(** *** The start handler, errors included *)

(** The handler once it has its session. *)
Lemma start_with_session (w : World) (message : Message) (u : User) :
  from_user message = Some u ->
  get_session w = Ok tt ->
  command_start_handler t BOT_ADMIN_ID w message =
  (match outcome (persistence_block w message u) with
   | Ok _ => outcome (welcome_and_menu t BOT_ADMIN_ID w message u)
   | Raise e => Raise e
   end,
   EvGetSession
     :: events (persistence_block w message u)
     ++ match outcome (persistence_block w message u) with
        | Ok _ => events (welcome_and_menu t BOT_ADMIN_ID w message u)
        | Raise _ => []
        end).
Proof.
  intros Hu Hsession.
  rewrite (command_start_handler_steps w message u Hu), bind_call, Hsession.
  destruct (outcome (persistence_block w message u)) as [[]|e] eqn:Hout.
  - now rewrite (events_bind_Ok _ _ tt Hout).
  - now rewrite (events_bind_Raise _ _ e Hout), app_nil_r.
Qed.

(** The reply and the menu update, by the answer to the reply. *)
Lemma welcome_and_menu_run (w : World) (message : Message) (u : User) :
  welcome_and_menu t BOT_ADMIN_ID w message u =
  match answer w (chat_id (chat message))
               (t (or_str (user_language_code u) "en") "start.instructions" [])
               (Some "Markdown") (Some true) with
  | Ok _ =>
      (outcome (update_user_commands t w message (user_id u =? BOT_ADMIN_ID)
                  (or_bool (user_is_premium u) false)),
       welcome_event t message u
         :: events (update_user_commands t w message (user_id u =? BOT_ADMIN_ID)
                      (or_bool (user_is_premium u) false)))
  | Raise e => (Raise e, [welcome_event t message u])
  end.
Proof. unfold welcome_and_menu. now rewrite bind_call. Qed.

(** The persistence block, case by case: the two repository calls, the
    class of what they raise, the close. *)
Ltac persistence_cases w message u :=
  unfold persistence_block, try_finally, try_except_Exception, bind, call, LOG;
  destruct (try_create_chat w (chat_data_of w message)) as [[]|[c s|c s]] eqn:Hchat;
  [destruct (save_user w (user_data_of u)) as [[]|[c s|c s]] eqn:Huser| |];
  destruct (session_close w) as [[]|e'] eqn:Hclose;
  simpl.

Lemma persistence_block_quiet (w : World) (message : Message) (u : User) :
  filter is_transport_event (events (persistence_block w message u)) = []
  /\ In EvSessionClose (events (persistence_block w message u)).
Proof. persistence_cases w message u; simpl; auto 6. Qed.

Lemma persistence_block_close_raises (w : World) (message : Message) (u : User)
      (e : exn) :
  session_close w = Raise e ->
  outcome (persistence_block w message u) = Raise e.
Proof.
  intros He. persistence_cases w message u; congruence.
Qed.

Lemma persistence_block_repository_calls (w : World) (message : Message)
      (u : User) :
  filter is_repository_call (events (persistence_block w message u)) =
  EvTryCreateChat (chat_data_of w message)
    :: match try_create_chat w (chat_data_of w message) with
       | Ok _ => [EvSaveUser (user_data_of u)]
       | Raise _ => []
       end.
Proof. persistence_cases w message u; reflexivity. Qed.

Lemma no_storage_no_repository (tr : trace) :
  forallb (fun ev => negb (is_storage_event ev)) tr = true ->
  filter is_repository_call tr = [].
Proof.
  induction tr as [|ev tr IH]; simpl; [reflexivity|].
  destruct ev; simpl; try discriminate; auto.
Qed.

(** X6. If no session can be obtained, the exception of [get_session]
    escapes the start handler at once: no repository call, no close, no
    reply, no menu update, no record. *)
Theorem start_session_unavailable (w : World) (message : Message) (u : User)
        (e : exn) :
  from_user message = Some u ->
  get_session w = Raise e ->
  command_start_handler t BOT_ADMIN_ID w message = (Raise e, [EvGetSession]).
Proof.
  intros Hu Hsession.
  now rewrite (command_start_handler_steps w message u Hu), bind_call, Hsession.
Qed.

(** X7. If [session.close()] raises, its exception escapes the start
    handler, whatever the repository calls did before (an exception of
    theirs is replaced), and neither the welcome reply nor the menu update
    happens. *)
Theorem start_close_failure_escapes (w : World) (message : Message) (u : User)
        (e : exn) :
  from_user message = Some u ->
  get_session w = Ok tt ->
  session_close w = Raise e ->
  outcome (command_start_handler t BOT_ADMIN_ID w message) = Raise e
  /\ filter is_transport_event
       (events (command_start_handler t BOT_ADMIN_ID w message)) = []
  /\ In EvSessionClose (events (command_start_handler t BOT_ADMIN_ID w message)).
Proof.
  intros Hu Hsession Hclose.
  rewrite (start_with_session w message u Hu Hsession).
  rewrite (persistence_block_close_raises w message u e Hclose).
  destruct (persistence_block_quiet w message u) as [Hquiet Hin].
  cbn [outcome events fst snd]. rewrite app_nil_r.
  split; [reflexivity|]. split; [exact Hquiet | now right].
Qed.

(** X8. An exception of a repository call that is not an [Exception]
    (a [KeyboardInterrupt], say) is not swallowed: the session is closed,
    then the exception escapes the start handler, with no record written,
    no reply and no menu update. *)
Theorem start_base_exception_escapes (w : World) (message : Message) (u : User)
        (e : exn) :
  from_user message = Some u ->
  get_session w = Ok tt ->
  session_close w = Ok tt ->
  try_create_chat w (chat_data_of w message) = Raise e
  \/ (try_create_chat w (chat_data_of w message) = Ok tt
      /\ save_user w (user_data_of u) = Raise e) ->
  isinstance_Exception e = false ->
  outcome (command_start_handler t BOT_ADMIN_ID w message) = Raise e
  /\ filter (fun ev => is_transport_event ev || is_log_event ev)
       (events (command_start_handler t BOT_ADMIN_ID w message)) = []
  /\ In EvSessionClose (events (command_start_handler t BOT_ADMIN_ID w message)).
Proof.
  intros Hu Hsession Hclose0 Hfail He.
  rewrite (start_with_session w message u Hu Hsession).
  assert (Hblock : outcome (persistence_block w message u) = Raise e
                   /\ filter (fun ev => is_transport_event ev || is_log_event ev)
                        (events (persistence_block w message u)) = []
                   /\ In EvSessionClose (events (persistence_block w message u))).
  { persistence_cases w message u;
      destruct Hfail as [Hf|[Hf Hf']]; try congruence;
      try (injection Hf as <-); try (injection Hf' as <-);
      try discriminate He; simpl; auto 6. }
  destruct Hblock as (Hout & Hquiet & Hin).
  rewrite Hout. cbn [outcome events fst snd]. rewrite app_nil_r.
  split; [reflexivity|]. split; [exact Hquiet | now right].
Qed.

(** X9. With a session, the start handler calls the chat repository once,
    with the chat of the message, and then, only if that call returned, the
    user repository once, with the sender: the user record is keyed by the
    sender's identifier, not by the chat's. *)
Theorem start_repository_calls (w : World) (message : Message) (u : User) :
  from_user message = Some u ->
  get_session w = Ok tt ->
  filter is_repository_call
    (events (command_start_handler t BOT_ADMIN_ID w message)) =
  EvTryCreateChat (chat_data_of w message)
    :: match try_create_chat w (chat_data_of w message) with
       | Ok _ => [EvSaveUser (user_data_of u)]
       | Raise _ => []
       end
  /\ cs_id (chat_data_of w message) = chat_id (chat message)
  /\ uc_chat_id (user_data_of u) = user_id u.
Proof.
  intros Hu Hsession. split; [|split; reflexivity].
  rewrite (start_with_session w message u Hu Hsession).
  cbn [events snd filter is_repository_call].
  rewrite filter_app, persistence_block_repository_calls.
  replace (filter is_repository_call
             match outcome (persistence_block w message u) with
             | Ok _ => events (welcome_and_menu t BOT_ADMIN_ID w message u)
             | Raise _ => []
             end) with (@nil event); [now rewrite app_nil_r|].
  destruct (outcome (persistence_block w message u)); [|reflexivity].
  symmetry. apply no_storage_no_repository.
  eapply past_persisting; [|apply welcome_and_menu_phases]. discriminate.
Qed.

(** X10. If sending the welcome reply raises, the exception escapes the
    start handler and the menu is not updated: the attempted reply is the
    last event, after the persistence block, which is not undone. *)
Theorem start_reply_failure_escapes (w : World) (message : Message) (u : User)
        (e : exn) :
  from_user message = Some u ->
  get_session w = Ok tt ->
  outcome (persistence_block w message u) = Ok tt ->
  answer w (chat_id (chat message))
         (t (or_str (user_language_code u) "en") "start.instructions" [])
         (Some "Markdown") (Some true) = Raise e ->
  command_start_handler t BOT_ADMIN_ID w message =
  (Raise e,
   EvGetSession :: events (persistence_block w message u)
     ++ [welcome_event t message u]).
Proof.
  intros Hu Hsession Hblock Hanswer.
  rewrite (start_with_session w message u Hu Hsession), Hblock.
  now rewrite welcome_and_menu_run, Hanswer.
Qed.


(** X12. The start handler returns normally whenever the session can be
    obtained and closed, the repository calls raise nothing but
    [Exception]s, and the two transport calls do not raise: then it has
    sent exactly one reply and, given a bot, pushed exactly one menu, the
    one of the sender's role, to the chat of the message. *)
Theorem start_returns_normally (w : World) (message : Message) (u : User) :
  from_user message = Some u ->
  get_session w = Ok tt ->
  session_close w = Ok tt ->
  (forall e, try_create_chat w (chat_data_of w message) = Raise e ->
             isinstance_Exception e = true) ->
  (forall e, save_user w (user_data_of u) = Raise e ->
             isinstance_Exception e = true) ->
  answer w (chat_id (chat message))
         (t (or_str (user_language_code u) "en") "start.instructions" [])
         (Some "Markdown") (Some true) = Ok tt ->
  (forall b commands scope e, set_my_commands w b commands scope <> Raise e) ->
  outcome (command_start_handler t BOT_ADMIN_ID w message) = Ok tt
  /\ List.length (filter is_answer_event
                    (events (command_start_handler t BOT_ADMIN_ID w message)))
     = 1%nat
  /\ (bot message <> None ->
      pushed_menus (events (command_start_handler t BOT_ADMIN_ID w message)) =
      [(menu_names (user_id u =? BOT_ADMIN_ID) (or_bool (user_is_premium u) false),
        BotCommandScopeChat (chat_id (chat message)))]).
Proof.
  intros Hu Hsession Hclose0 Hchat0 Huser0 Hanswer Hpush.
  rewrite (start_with_session w message u Hu Hsession).
  assert (Hblock : outcome (persistence_block w message u) = Ok tt
                   /\ filter is_answer_event
                        (events (persistence_block w message u)) = []).
  { persistence_cases w message u; try congruence; auto;
      try (specialize (Hchat0 _ eq_refl); discriminate Hchat0);
      try (specialize (Huser0 _ eq_refl); discriminate Huser0). }
  destruct Hblock as (Hout & Hquiet). rewrite Hout.
  destruct (persistence_block_quiet w message u) as [Hsilent _].
  rewrite welcome_and_menu_run, Hanswer.
  cbn [outcome events fst snd filter is_answer_event].
  rewrite filter_app, Hquiet.
  cbn [app filter welcome_event is_answer_event List.length].
  assert (Hmenu : outcome (update_user_commands t w message
                             (user_id u =? BOT_ADMIN_ID)
                             (or_bool (user_is_premium u) false)) = Ok tt
                  /\ filter is_answer_event
                       (events (update_user_commands t w message
                                  (user_id u =? BOT_ADMIN_ID)
                                  (or_bool (user_is_premium u) false))) = []).
  { destruct (bot message) as [b|] eqn:Hb.
    - rewrite (update_user_commands_run w message u b _ _ Hu Hb).
      cbn [outcome events fst snd]. rewrite filter_app.
      destruct (set_my_commands w b _ _) as [[|]|e] eqn:Hanswered;
        [| |now elim (Hpush _ _ _ _ Hanswered)];
        destruct (user_id u =? BOT_ADMIN_ID),
                 (or_bool (user_is_premium u) false); split; reflexivity.
    - unfold update_user_commands. rewrite Hu, Hb. split; reflexivity. }
  destruct Hmenu as (Hout' & Hquiet'). rewrite Hout', Hquiet'.
  split; [reflexivity|]. split; [reflexivity|].
  intros Hbot. destruct (bot message) as [b|] eqn:Hb; [|now elim Hbot].
  rewrite <- pushed_menus_transport.
  cbn [filter is_transport_event is_answer_event is_set_commands_event orb].
  rewrite filter_app, Hsilent.
  cbn [app filter is_transport_event is_answer_event is_set_commands_event
       orb pushed_menus welcome_event].
  rewrite pushed_menus_transport.
  now apply update_user_commands_pushes with (u := u) (b := b).
Qed.

Lemma persistence_block_logs_iff (w : World) (message : Message) (u : User)
      (e : exn) :
  In (EvLog EXCEPTION "Failed to save user on /start: %s" [LExc e])
     (events (persistence_block w message u))
  <-> isinstance_Exception e = true
      /\ (try_create_chat w (chat_data_of w message) = Raise e
          \/ (try_create_chat w (chat_data_of w message) = Ok tt
              /\ save_user w (user_data_of u) = Raise e)).
Proof.
  persistence_cases w message u;
    (split;
     [ intros H;
       repeat (destruct H as [H|H]; try discriminate H);
       first [ now destruct H
             | injection H as <-; (split; [reflexivity | auto]) ]
     | intros (He & Hf);
       destruct Hf as [Hf|[Hf Hf']];
       try discriminate Hf; try discriminate Hf';
       try (injection Hf as <-); try (injection Hf' as <-);
       try discriminate He; simpl; auto 6 ]).
Qed.

Lemma welcome_and_menu_no_storage_record (w : World) (message : Message)
      (u : User) (e : exn) :
  ~ In (EvLog EXCEPTION "Failed to save user on /start: %s" [LExc e])
       (events (welcome_and_menu t BOT_ADMIN_ID w message u)).
Proof.
  rewrite welcome_and_menu_run.
  destruct (answer w _ _ _ _) as [[]|e0]; cbn [events snd welcome_event];
    intros [H|H]; try discriminate H; try now destruct H.
  revert H. destruct (bot message) as [b|] eqn:Hb.
  - destruct (from_user message) as [u'|] eqn:Hu.
    + rewrite (update_user_commands_run w message u' b _ _ Hu Hb).
      cbn [events snd]. intros H. apply in_app_or in H.
      destruct H as [H|[H|H]]; try discriminate H.
      * revert H. unfold menu_records.
        destruct (user_id u =? BOT_ADMIN_ID),
                 (or_bool (user_is_premium u) false);
          simpl; intuition discriminate.
      * revert H. destruct (set_my_commands w b _ _) as [[|]|e1];
          simpl; intuition discriminate.
    + unfold update_user_commands. rewrite Hu. intros [].
  - unfold update_user_commands. rewrite Hb.
    destruct (from_user message); intros [].
Qed.

(** X13. The storage failure record names the failure and nothing else:
    with a session, the start handler logs [Failed to save user on /start]
    with an exception [e] iff [e] is the [Exception] that the chat creation
    raised, or that the user upsert raised after the chat creation
    returned. *)
Theorem storage_failure_logged_iff (w : World) (message : Message) (u : User)
        (e : exn) :
  from_user message = Some u ->
  get_session w = Ok tt ->
  In (EvLog EXCEPTION "Failed to save user on /start: %s" [LExc e])
     (events (command_start_handler t BOT_ADMIN_ID w message))
  <-> isinstance_Exception e = true
      /\ (try_create_chat w (chat_data_of w message) = Raise e
          \/ (try_create_chat w (chat_data_of w message) = Ok tt
              /\ save_user w (user_data_of u) = Raise e)).
Proof.
  intros Hu Hsession.
  rewrite <- persistence_block_logs_iff.
  rewrite (start_with_session w message u Hu Hsession). cbn [events snd].
  split; intros H.
  - destruct H as [H|H]; [discriminate H|].
    apply in_app_or in H. destruct H as [H|H]; [exact H|].
    destruct (outcome (persistence_block w message u)); [|now destruct H].
    now elim (welcome_and_menu_no_storage_record w message u e).
  - right. apply in_or_app. now left.
Qed.

(** *** The catch-all handlers *)

(** X14. Each of the three routers falls back on a handler of its own,
    registered last and without a command filter, which sends one reply
    with a fixed text that names the router (user, admin, premium), to any
    message, sender or not, and does nothing else; it ends as that reply
    ends. *)
Theorem catch_all_handlers (w : World) (message : Message) :
  exists root admin premium h_root h_admin h_premium,
    get_routers = Some [root; admin; premium]
    /\ catch_all root = Some h_root
    /\ catch_all admin = Some h_admin
    /\ catch_all premium = Some h_premium
    /\ run_handler t BOT_ADMIN_ID h_root w message =
       (answer w (chat_id (chat message)) "User Not implemented!!!" None None,
        [EvAnswer (chat_id (chat message)) "User Not implemented!!!" None None])
    /\ run_handler t BOT_ADMIN_ID h_admin w message =
       (answer w (chat_id (chat message)) "Admin Not implemented!!!" None None,
        [EvAnswer (chat_id (chat message)) "Admin Not implemented!!!" None None])
    /\ run_handler t BOT_ADMIN_ID h_premium w message =
       (answer w (chat_id (chat message)) "Premium Not implemented!!!" None None,
        [EvAnswer (chat_id (chat message)) "Premium Not implemented!!!" None None]).
Proof.
  do 6 eexists.
  split; [reflexivity|].
  do 3 (split; [reflexivity|]).
  repeat split.
Qed.

End Properties.

(** ** The properties at work

    Alice (identifier 7, premium, Spanish) is the configured admin; Bob
    (identifier 8) declares neither a premium flag nor a language. *)

Example persistence_block_user_fails :
  persistence_block world_user_fails (msg_from bob) bob =
  (Ok tt,
   [ EvTryCreateChat
       {| cs_id := 8; cs_type := "private"; cs_title := None;
          cs_username := None; cs_first_name := None; cs_last_name := None;
          cs_is_forum := false; cs_created_at := 1700000000 |};
     EvSaveUser
       {| uc_chat_id := 8; uc_username := ""; uc_is_bot := false;
          uc_is_premium := false |};
     EvLog EXCEPTION "Failed to save user on /start: %s" [LExc db_error];
     EvSessionClose ]).
Proof. reflexivity. Qed.

Example persistence_block_interrupted :
  persistence_block world_interrupted (msg_from bob) bob =
  (Raise interrupt,
   [ EvTryCreateChat
       {| cs_id := 8; cs_type := "private"; cs_title := None;
          cs_username := None; cs_first_name := None; cs_last_name := None;
          cs_is_forum := false; cs_created_at := 1700000000 |};
     EvSaveUser
       {| uc_chat_id := 8; uc_username := ""; uc_is_bot := false;
          uc_is_premium := false |};
     EvSessionClose ]).
Proof. reflexivity. Qed.

Example start_replies_in_spanish :
  filter is_transport_event
    (events (command_start_handler t_demo 7 world_ok (msg_from alice))) =
  [ EvAnswer 7 "es:start.instructions" (Some "Markdown") (Some true);
    EvSetMyCommands the_bot
      (map (fun name =>
              {| command := name;
                 description :=
                   if (name =? "reset_auth")%string
                   then "Reset Telegram auth code"
                   else if (name =? "bugreport")%string
                        then "es:cmd.listbugs"
                        else ("es:cmd." ++ name)%string |})
           (menu_names true true))
      (BotCommandScopeChat 7) ].
Proof. reflexivity. Qed.

Lemma update_user_commands_menu_alice :
  from_user (msg_from alice) = Some alice
  /\ bot (msg_from alice) = Some the_bot
  /\ map fst (pushed_menus
               (events (update_user_commands t_demo world_ok (msg_from alice)
                                             true true)))
     = [["start"; "help"; "queue"; "profile"; "bugs"; "monitor"; "unmonitor";
         "users"; "history"; "block"; "unblock"; "blocklist"; "status";
         "restart"; "bugreport"; "bugs"; "reset_auth"; "flush"; "welcome"]].
Proof.
  split; [reflexivity|]. split; [reflexivity|].
  destruct (update_user_commands_menu t_demo world_ok (msg_from alice)
              alice the_bot true true eq_refl eq_refl)
    as (names & Hpush & Hnames & _).
  rewrite Hpush, Hnames. reflexivity.
Defined.

Lemma start_survives_storage_failure_bob :
  from_user (msg_from bob) = Some bob
  /\ get_session world_user_fails = Ok tt
  /\ try_create_chat world_user_fails (chat_data_of world_user_fails (msg_from bob))
     = Ok tt
  /\ save_user world_user_fails (user_data_of bob) = Raise db_error
  /\ isinstance_Exception db_error = true
  /\ In (EvLog EXCEPTION "Failed to save user on /start: %s" [LExc db_error])
        (events (command_start_handler t_demo 7 world_user_fails (msg_from bob)))
  /\ outcome (command_start_handler t_demo 7 world_user_fails (msg_from bob))
     = outcome (command_start_handler t_demo 7
                  (with_working_storage world_user_fails) (msg_from bob))
  /\ filter is_transport_event
       (events (command_start_handler t_demo 7 world_user_fails (msg_from bob)))
     = filter is_transport_event
         (events (command_start_handler t_demo 7
                    (with_working_storage world_user_fails) (msg_from bob))).
Proof.
  do 5 (split; [reflexivity|]).
  destruct (start_survives_storage_failure t_demo 7 world_user_fails
              (msg_from bob) bob db_error eq_refl eq_refl
              (or_intror (conj eq_refl eq_refl)) eq_refl)
    as (Hlog & Hout & Htransport & _).
  exact (conj Hlog (conj Hout Htransport)).
Defined.

Lemma start_handler_order_bob :
  events (command_start_handler t_demo 7 world_user_fails (msg_from bob))
  = (EvGetSession :: events (persistence_block world_user_fails (msg_from bob) bob))
      ++ welcome_event t_demo (msg_from bob) bob
      :: events (update_user_commands t_demo world_user_fails (msg_from bob)
                                      false false)
  /\ In EvSessionClose
        (EvGetSession :: events (persistence_block world_user_fails (msg_from bob) bob)).
Proof.
  split; [reflexivity|].
  destruct (start_handler_order t_demo 7 world_user_fails (msg_from bob))
    as [Horder _].
  destruct (Horder
              (EvGetSession
                 :: events (persistence_block world_user_fails (msg_from bob) bob))
              (welcome_event t_demo (msg_from bob) bob)
              (events (update_user_commands t_demo world_user_fails (msg_from bob)
                                            false false))
              eq_refl)
    as [Hreply _].
  apply (Hreply eq_refl).
Defined.

Lemma help_reply_sections_alice :
  from_user (msg_from alice) = Some alice
  /\ events (command_help_handler t_demo 7 world_ok (msg_from alice))
     = [EvAnswer 7
          (render_help t_demo "es" [HelpHeader; HelpGeneral; HelpPremium; HelpAdmin])
          (Some "Markdown") None].
Proof.
  split; [reflexivity|].
  destruct (help_reply_sections t_demo 7 world_ok (msg_from alice) alice eq_refl)
    as (Hreply & _ & _ & _ & _ & Hall).
  rewrite Hreply, (Hall eq_refl eq_refl). reflexivity.
Defined.

Lemma menu_push_scoped_and_tolerant_bob :
  from_user (msg_from bob) = Some bob
  /\ bot (msg_from bob) = Some the_bot
  /\ map snd (pushed_menus
               (events (update_user_commands t_demo world_menu_refused
                                             (msg_from bob) false false)))
     = [BotCommandScopeChat 8]
  /\ outcome (update_user_commands t_demo world_menu_refused (msg_from bob)
                                   false false) = Ok tt.
Proof.
  split; [reflexivity|]. split; [reflexivity|].
  destruct (menu_push_scoped_and_tolerant t_demo world_menu_refused
              (msg_from bob) bob the_bot false false eq_refl eq_refl)
    as (Hscope & Hrefused & _).
  split; [exact Hscope|].
  apply Hrefused. intros commands scope _. reflexivity.
Defined.

(** The transport may refuse a push by raising: then the exception leaves
    [update_user_commands] and nothing is logged at the error level, so it
    is not true that every push the transport did not accept is logged and
    raises nothing. *)
Lemma menu_push_refusal_can_raise :
  ~ (forall (w : World) (message : Message) (u : User) (b : Bot)
            (admin premium : bool),
       from_user message = Some u ->
       bot message = Some b ->
       (forall commands scope,
          In (EvSetMyCommands b commands scope)
             (events (update_user_commands t_demo w message admin premium)) ->
          set_my_commands w b commands scope <> Ok true) ->
       outcome (update_user_commands t_demo w message admin premium) = Ok tt
       /\ existsb is_error_record
            (events (update_user_commands t_demo w message admin premium)) = true).
Proof.
  intros Hclaim.
  destruct (Hclaim world_menu_raises (msg_from bob) bob the_bot false false
              eq_refl eq_refl) as [Hout _].
  - intros commands scope _ H. discriminate H.
  - discriminate Hout.
Qed.

Lemma session_always_closed_interrupted :
  from_user (msg_from bob) = Some bob
  /\ get_session world_interrupted = Ok tt
  /\ save_user world_interrupted (user_data_of bob) = Raise interrupt
  /\ outcome (command_start_handler t_demo 7 world_interrupted (msg_from bob))
     = Raise interrupt
  /\ List.length
       (filter is_session_close
          (events (command_start_handler t_demo 7 world_interrupted (msg_from bob))))
     = 1%nat.
Proof.
  do 4 (split; [reflexivity|]).
  apply (session_always_closed t_demo 7 world_interrupted (msg_from bob) bob
           eq_refl eq_refl).
Defined.

Lemma start_without_sender_demo :
  from_user msg_no_sender = None
  /\ outcome (command_start_handler t_demo 7 world_ok msg_no_sender) = Ok tt
  /\ events (command_start_handler t_demo 7 world_ok msg_no_sender) = [].
Proof.
  split; [reflexivity|].
  apply (start_without_sender t_demo 7 world_ok msg_no_sender eq_refl).
Defined.

Lemma menu_update_skipped_without_bot_alice :
  bot (msg_no_bot alice) = None
  /\ from_user (msg_no_bot alice) = Some alice
  /\ update_user_commands t_demo world_ok (msg_no_bot alice) true true = (Ok tt, [])
  /\ command_start_handler t_demo 7 world_ok (msg_no_bot alice) =
     (Ok tt,
      EvGetSession :: events (persistence_block world_ok (msg_no_bot alice) alice)
        ++ [welcome_event t_demo (msg_no_bot alice) alice]).
Proof.
  split; [reflexivity|]. split; [reflexivity|].
  destruct (menu_update_skipped_without_bot t_demo 7 world_ok (msg_no_bot alice)
              true true eq_refl) as (Hskip & Hstart).
  split; [exact Hskip|].
  apply (Hstart alice); reflexivity.
Defined.

(** ** Failures at work *)

Lemma menu_descriptions_localized_alice :
  from_user (msg_from alice) = Some alice
  /\ bot (msg_from alice) = Some the_bot
  /\ pushed_commands
       (events (update_user_commands t_demo world_ok (msg_from alice) true false))
     = [map (fun c => mkBotCommand (fst c) (snd c))
            [ ("start", "es:cmd.start"); ("help", "es:cmd.help");
              ("queue", "es:cmd.queue"); ("profile", "es:cmd.profile");
              ("bugs", "es:cmd.bugs"); ("users", "es:cmd.users");
              ("history", "es:cmd.history"); ("block", "es:cmd.block");
              ("unblock", "es:cmd.unblock"); ("blocklist", "es:cmd.blocklist");
              ("status", "es:cmd.status"); ("restart", "es:cmd.restart");
              ("bugreport", "es:cmd.listbugs"); ("bugs", "es:cmd.bugs");
              ("reset_auth", "Reset Telegram auth code");
              ("flush", "es:cmd.flush"); ("welcome", "es:cmd.welcome") ]].
Proof.
  split; [reflexivity|]. split; [reflexivity|].
  destruct (menu_descriptions_localized t_demo world_ok (msg_from alice)
              alice the_bot true false eq_refl eq_refl)
    as (commands & Hpush & _).
  rewrite Hpush. injection Hpush as <-. reflexivity.
Defined.

Lemma menu_update_outcome_raises :
  from_user (msg_from bob) = Some bob
  /\ bot (msg_from bob) = Some the_bot
  /\ outcome (update_user_commands t_demo world_menu_raises (msg_from bob)
                                   false false) = Raise api_error.
Proof.
  split; [reflexivity|]. split; [reflexivity|].
  destruct (menu_update_outcome t_demo world_menu_raises (msg_from bob)
              bob the_bot false false eq_refl eq_refl) as (Hraise & _).
  apply Hraise. reflexivity.
Defined.

Lemma menu_update_needs_sender_and_bot_demo :
  from_user msg_no_sender = None
  /\ bot msg_no_sender = Some the_bot
  /\ update_user_commands t_demo world_ok msg_no_sender true true = (Ok tt, []).
Proof.
  split; [reflexivity|]. split; [reflexivity|].
  destruct (menu_update_needs_sender_and_bot t_demo world_ok msg_no_sender
              true true) as (Hskip & _).
  apply Hskip. now left.
Defined.

Lemma help_without_sender_demo :
  from_user msg_no_sender = None
  /\ command_help_handler t_demo 7 world_ok msg_no_sender = (Ok tt, []).
Proof.
  split; [reflexivity|].
  apply (help_without_sender t_demo 7 world_ok msg_no_sender eq_refl).
Defined.

Lemma help_ends_as_answer_fails :
  from_user (msg_from bob) = Some bob
  /\ command_help_handler t_demo 7 world_answer_fails (msg_from bob)
     = (Raise api_error,
        [EvAnswer 8 (render_help t_demo "en" [HelpHeader; HelpGeneral])
                  (Some "Markdown") None]).
Proof.
  split; [reflexivity|].
  rewrite (help_ends_as_answer t_demo 7 world_answer_fails (msg_from bob) bob
             eq_refl).
  reflexivity.
Defined.

Lemma start_session_unavailable_demo :
  from_user (msg_from bob) = Some bob
  /\ get_session world_no_session = Raise db_error
  /\ command_start_handler t_demo 7 world_no_session (msg_from bob)
     = (Raise db_error, [EvGetSession]).
Proof.
  split; [reflexivity|]. split; [reflexivity|].
  apply (start_session_unavailable t_demo 7 world_no_session (msg_from bob) bob
           db_error eq_refl eq_refl).
Defined.

Lemma start_close_failure_escapes_demo :
  from_user (msg_from bob) = Some bob
  /\ get_session world_close_fails = Ok tt
  /\ session_close world_close_fails = Raise db_error
  /\ save_user world_close_fails (user_data_of bob) = Raise interrupt
  /\ outcome (command_start_handler t_demo 7 world_close_fails (msg_from bob))
     = Raise db_error.
Proof.
  do 4 (split; [reflexivity|]).
  apply (start_close_failure_escapes t_demo 7 world_close_fails (msg_from bob)
           bob db_error eq_refl eq_refl eq_refl).
Defined.

Lemma start_base_exception_escapes_demo :
  from_user (msg_from bob) = Some bob
  /\ get_session world_interrupted = Ok tt
  /\ session_close world_interrupted = Ok tt
  /\ try_create_chat world_interrupted (chat_data_of world_interrupted (msg_from bob))
     = Ok tt
  /\ save_user world_interrupted (user_data_of bob) = Raise interrupt
  /\ isinstance_Exception interrupt = false
  /\ outcome (command_start_handler t_demo 7 world_interrupted (msg_from bob))
     = Raise interrupt.
Proof.
  do 6 (split; [reflexivity|]).
  apply (start_base_exception_escapes t_demo 7 world_interrupted (msg_from bob)
           bob interrupt eq_refl eq_refl eq_refl
           (or_intror (conj eq_refl eq_refl)) eq_refl).
Defined.

Lemma start_repository_calls_in_group :
  from_user (msg_in_group alice) = Some alice
  /\ get_session world_chat_fails = Ok tt
  /\ filter is_repository_call
       (events (command_start_handler t_demo 7 world_chat_fails (msg_in_group alice)))
     = [EvTryCreateChat
          {| cs_id := -1001; cs_type := "supergroup"; cs_title := Some "stories";
             cs_username := None; cs_first_name := None; cs_last_name := None;
             cs_is_forum := true; cs_created_at := 1700000000 |}]
  /\ filter is_repository_call
       (events (command_start_handler t_demo 7 world_ok (msg_in_group alice)))
     = [EvTryCreateChat
          {| cs_id := -1001; cs_type := "supergroup"; cs_title := Some "stories";
             cs_username := None; cs_first_name := None; cs_last_name := None;
             cs_is_forum := true; cs_created_at := 1700000000 |};
        EvSaveUser
          {| uc_chat_id := 7; uc_username := "alice"; uc_is_bot := false;
             uc_is_premium := true |}].
Proof.
  split; [reflexivity|]. split; [reflexivity|].
  destruct (start_repository_calls t_demo 7 world_chat_fails (msg_in_group alice)
              alice eq_refl eq_refl) as (Hfails & _).
  destruct (start_repository_calls t_demo 7 world_ok (msg_in_group alice)
              alice eq_refl eq_refl) as (Hworks & _).
  rewrite Hfails, Hworks. split; reflexivity.
Defined.

Lemma start_reply_failure_escapes_demo :
  from_user (msg_from bob) = Some bob
  /\ get_session world_answer_fails = Ok tt
  /\ outcome (persistence_block world_answer_fails (msg_from bob) bob) = Ok tt
  /\ outcome (command_start_handler t_demo 7 world_answer_fails (msg_from bob))
     = Raise api_error
  /\ pushed_menus
       (events (command_start_handler t_demo 7 world_answer_fails (msg_from bob)))
     = [].
Proof.
  do 3 (split; [reflexivity|]).
  rewrite (start_reply_failure_escapes t_demo 7 world_answer_fails (msg_from bob)
             bob api_error eq_refl eq_refl eq_refl eq_refl).
  split; reflexivity.
Defined.


Lemma start_returns_normally_chat_fails :
  from_user (msg_from bob) = Some bob
  /\ get_session world_chat_fails = Ok tt
  /\ session_close world_chat_fails = Ok tt
  /\ try_create_chat world_chat_fails (chat_data_of world_chat_fails (msg_from bob))
     = Raise db_error
  /\ outcome (command_start_handler t_demo 7 world_chat_fails (msg_from bob))
     = Ok tt.
Proof.
  do 4 (split; [reflexivity|]).
  apply (start_returns_normally t_demo 7 world_chat_fails (msg_from bob) bob
           eq_refl eq_refl eq_refl).
  - intros e [= <-]. reflexivity.
  - intros e H. discriminate H.
  - reflexivity.
  - intros b commands scope e H. discriminate H.
Defined.

Lemma storage_failure_logged_iff_demo :
  from_user (msg_from bob) = Some bob
  /\ get_session world_chat_fails = Ok tt
  /\ In (EvLog EXCEPTION "Failed to save user on /start: %s" [LExc db_error])
        (events (command_start_handler t_demo 7 world_chat_fails (msg_from bob)))
  /\ ~ In (EvLog EXCEPTION "Failed to save user on /start: %s" [LExc api_error])
          (events (command_start_handler t_demo 7 world_chat_fails (msg_from bob))).
Proof.
  split; [reflexivity|]. split; [reflexivity|].
  split.
  - apply (storage_failure_logged_iff t_demo 7 world_chat_fails (msg_from bob) bob
             db_error eq_refl eq_refl).
    split; [reflexivity|]. now left.
  - intros H.
    apply (storage_failure_logged_iff t_demo 7 world_chat_fails (msg_from bob) bob
             api_error eq_refl eq_refl) in H.
    destruct H as (_ & [H|[H _]]); discriminate H.
Defined.
